(** * The Vega-Lite schema parser ([_schema_parser.py]) and its specification

    A shallow embedding of the code generator: the JSON schema document as an
    inductive type, the Python exceptions as an error type, the import list
    of a definition object as explicit state, and the generated text as
    strings. *)

From Stdlib Require Import List String Ascii Bool Arith ZArith Lia.
From Stdlib Require Import Permutation Sorted Numbers.DecimalString.
Import ListNotations.
Local Open Scope list_scope.
Local Open Scope string_scope.

Set Implicit Arguments.

(** ** Data model *)

(** The value [json.load] returns.  A JSON object is kept as the list of its
    bindings in document order; a Python dict holds each key once, which
    [wf_dict] states where a theorem depends on it.  The program does no
    arithmetic on numbers, it only prints them: an integer is a [Z], a float
    is carried by the text Python prints for it. *)
#[local] Unset Elimination Schemes.
Inductive json : Type :=
| JNull
| JBool (b : bool)
| JInt (z : Z)
| JFloat (repr : string)
| JStr (s : string)
| JArr (items : list json)
| JObj (kvs : list (string * json)).
#[local] Set Elimination Schemes.

Definition wf_dict (A : Type) (kvs : list (string * A)) : Prop :=
  NoDup (map fst kvs).

(** The exceptions the program raises itself or meets in the Python
    operations it uses. *)
Inductive exn : Type :=
| NotImplementedError (msg : string)
| KeyError (key : string)
| TypeError
| ValueError
| AttributeError.

Definition result (A : Type) : Type := (exn + A)%type.

Definition ret (A : Type) (a : A) : result A := inr a.
Definition raise (A : Type) (e : exn) : result A := inl e.
Arguments raise {A} e.

Definition bind (A B : Type) (m : result A) (k : A -> result B) : result B :=
  match m with
  | inl e => inl e
  | inr a => k a
  end.

Declare Scope result_scope.
Delimit Scope result_scope with result.
Notation "x <- m ;; k" := (bind m (fun x => k))
  (at level 61, m at next level, right associativity) : result_scope.
Notation "' p <- m ;; k" := (bind m (fun x => match x with p => k end))
  (at level 61, p pattern, m at next level, right associativity) : result_scope.
Local Open Scope result_scope.

(** ** Python strings *)

(** [sep in s] for two strs. *)
Fixpoint contains (sep s : string) : bool :=
  if prefix sep s then true
  else match s with
       | EmptyString => false
       | String _ s' => contains sep s'
       end.

(** [s.find(sep)], with [len(s)] where Python answers -1. *)
Fixpoint first_index (sep s : string) : nat :=
  if prefix sep s then 0
  else match s with
       | EmptyString => 0
       | String _ s' => S (first_index sep s')
       end.

(** [s[:n]] *)
Fixpoint take (n : nat) (s : string) : string :=
  match n, s with
  | S k, String c s' => String c (take k s')
  | _, _ => EmptyString
  end.

(** [s.split(sep)] for a non-empty [sep]: the pieces between the
    occurrences of [sep], found from the left without overlap.  [skip] counts
    the characters of a separator still to pass over, [cur] is the piece
    being read. *)
Fixpoint split_go (sep : string) (skip : nat) (cur : string) (s : string)
  : list string :=
  match skip with
  | S k =>
      match s with
      | EmptyString => [cur]
      | String _ s' => split_go sep k cur s'
      end
  | O =>
      match s with
      | EmptyString => [cur]
      | String c s' =>
          if prefix sep s
          then cur :: split_go sep (String.length sep - 1) EmptyString s'
          else split_go sep 0 (cur ++ String c EmptyString) s'
      end
  end.

Definition split (sep s : string) : list string :=
  split_go sep 0 EmptyString s.

(** The characters [str.rstrip()] removes, within ASCII: tab, line feed,
    vertical tab, form feed, carriage return, the four separators 0x1c-0x1f
    and the space. *)
Definition is_space (c : ascii) : bool :=
  let n := nat_of_ascii c in
  ((Nat.leb 9 n && Nat.leb n 13) || (Nat.leb 28 n && Nat.leb n 32))%bool.

Fixpoint rstrip (s : string) : string :=
  match s with
  | EmptyString => EmptyString
  | String c s' =>
      match rstrip s' with
      | EmptyString => if is_space c then EmptyString else String c EmptyString
      | r => String c r
      end
  end.

(** [str.lower()] within ASCII. *)
Definition lower_ascii (c : ascii) : ascii :=
  let n := nat_of_ascii c in
  if (Nat.leb 65 n && Nat.leb n 90)%bool then ascii_of_nat (n + 32) else c.

Fixpoint lower (s : string) : string :=
  match s with
  | EmptyString => EmptyString
  | String c s' => String (lower_ascii c) (lower s')
  end.

(** [sep.join(l)] is [String.concat sep l]. *)
Definition join (sep : string) (l : list string) : string := String.concat sep l.

(** ** Printing Python values: [str] and [repr] *)

Definition str_of_Z (z : Z) : string := NilZero.string_of_int (Z.to_int z).

Definition hex_digit (n : nat) : ascii :=
  if Nat.ltb n 10 then ascii_of_nat (48 + n) else ascii_of_nat (87 + n).

(** One character inside a [repr] with quote character [q], within ASCII. *)
Definition repr_char (q : ascii) (c : ascii) : string :=
  let n := nat_of_ascii c in
  if (Ascii.eqb c q || Ascii.eqb c "\")%bool then String "\" (String c EmptyString)
  else if Nat.eqb n 9 then "\t"
  else if Nat.eqb n 10 then "\n"
  else if Nat.eqb n 13 then "\r"
  else if (Nat.ltb n 32 || Nat.eqb n 127)%bool
       then String "\" (String "x" (String (hex_digit (n / 16))
                                      (String (hex_digit (n mod 16)) EmptyString)))
  else String c EmptyString.

Fixpoint repr_chars (q : ascii) (s : string) : string :=
  match s with
  | EmptyString => EmptyString
  | String c s' => repr_char q c ++ repr_chars q s'
  end.

(** [repr] of a str: single quotes, unless the text has a single quote and
    no double quote. *)
Definition double_quote : ascii := ascii_of_nat 34.

Definition repr_str (s : string) : string :=
  let q := if (contains "'" s && negb (contains (String double_quote EmptyString) s))%bool
           then double_quote else "'"%char in
  String q (repr_chars q s ++ String q EmptyString).

Fixpoint py_repr (v : json) : string :=
  match v with
  | JNull => "None"
  | JBool true => "True"
  | JBool false => "False"
  | JInt z => str_of_Z z
  | JFloat r => r
  | JStr s => repr_str s
  | JArr l => "[" ++ join ", " (map py_repr l) ++ "]"
  | JObj kvs =>
      "{" ++ join ", " (map (fun kv => repr_str (fst kv) ++ ": " ++ py_repr (snd kv)) kvs)
          ++ "}"
  end.

(** [str(v)], which is what [format] puts in a replacement field. *)
Definition py_str (v : json) : string :=
  match v with
  | JStr s => s
  | _ => py_repr v
  end.

(** ** Python operations on the loaded document *)

(** [sorted(l)] on values compared through a str key.  Python's sort is
    stable, and so is this insertion sort: an element goes before the first
    one whose key is not smaller. *)
Section Sorted.
Variable A : Type.
Variable key : A -> string.

Fixpoint insert_sorted (x : A) (l : list A) : list A :=
  match l with
  | [] => [x]
  | y :: l' =>
      if String.leb (key x) (key y) then x :: l else y :: insert_sorted x l'
  end.

Fixpoint sorted_by (l : list A) : list A :=
  match l with
  | [] => []
  | x :: l' => insert_sorted x (sorted_by l')
  end.
End Sorted.

(** [sorted] of a list of strs, and of the [(key, value)] pairs of a dict,
    whose keys differ, so that the values are never compared. *)
Definition sorted (l : list string) : list string := sorted_by (fun s => s) l.
Definition sorted_items (A : Type) (kvs : list (string * A)) : list (string * A) :=
  sorted_by (@fst string A) kvs.

Section Dict.
Variable A : Type.

Fixpoint lookup (k : string) (kvs : list (string * A)) : option A :=
  match kvs with
  | [] => None
  | (k', v) :: r => if String.eqb k' k then Some v else lookup k r
  end.

Definition has_key (k : string) (kvs : list (string * A)) : bool :=
  match lookup k kvs with
  | Some _ => true
  | None => false
  end.

(** [d[k] = v] *)
Fixpoint dict_set (k : string) (v : A) (kvs : list (string * A))
  : list (string * A) :=
  match kvs with
  | [] => [(k, v)]
  | (k', v') :: r =>
      if String.eqb k' k then (k', v) :: r else (k', v') :: dict_set k v r
  end.
End Dict.

(** [v == s] for a str [s] *)
Definition py_eq_str (v : json) (s : string) : bool :=
  match v with
  | JStr s' => String.eqb s' s
  | _ => false
  end.

(** [k in v]: a key of a dict, a substring of a str, an element of a list;
    the other values are not containers. *)
Definition py_in (k : string) (v : json) : result bool :=
  match v with
  | JObj kvs => ret (has_key k kvs)
  | JStr s => ret (contains k s)
  | JArr l => ret (existsb (fun x => py_eq_str x k) l)
  | _ => raise TypeError
  end.

(** [v[k]] for a str [k]: only a dict can be indexed by a str. *)
Definition py_getitem (v : json) (k : string) : result json :=
  match v with
  | JObj kvs =>
      match lookup k kvs with
      | Some x => ret x
      | None => raise (KeyError k)
      end
  | _ => raise TypeError
  end.

(** [f(v[k])], for the recursive calls of the resolver on a part of its
    argument: [f] is applied inside the search, where the part is reached. *)
Section GetItemWith.
Variable B : Type.
Variable f : json -> B.

Fixpoint lookup_with (k : string) (kvs : list (string * json)) : option B :=
  match kvs with
  | [] => None
  | (k', v) :: r => if String.eqb k' k then Some (f v) else lookup_with k r
  end.

Definition py_getitem_with (v : json) (k : string) : result B :=
  match v with
  | JObj kvs =>
      match lookup_with k kvs with
      | Some b => ret b
      | None => raise (KeyError k)
      end
  | _ => raise TypeError
  end.
End GetItemWith.

(** [s.split(sep)] on a value that has to be a str *)
Definition py_split (v : json) (sep : string) : result (list string) :=
  match v with
  | JStr s => ret (split sep s)
  | _ => raise AttributeError
  end.

(** [d.items()] on a value that has to be a dict *)
Definition py_items (v : json) : result (list (string * json)) :=
  match v with
  | JObj kvs => ret kvs
  | _ => raise AttributeError
  end.

Definition nl : string := String (ascii_of_nat 10) EmptyString.
Definition triple_quote : string :=
  String double_quote (String double_quote (String double_quote EmptyString)).

(** ** SchemaDefinition: the helpers shared by the definition classes *)

Definition file_comment : string :=
  "# This file auto-generated by `_schema_parser.py`." ++ nl ++
  "# Do not modify this file directly.".

Definition test_template (name : string) : string :=
  "from ... import " ++ name ++ nl ++ nl ++ nl ++
  "def test_" ++ name ++ "():" ++ nl ++
  "    obj = " ++ name ++ "()" ++ nl.

(** The summary of a description: the text before the first "(e.g.", and of
    that the text before the first full stop. *)
Definition summary (help_str : string) : string :=
  hd EmptyString (split "." (hd EmptyString (split "(e.g." help_str))).

Definition format_help_string (help_str : json) (summarize : bool) : result string :=
  match help_str with
  | JStr s =>
      let s := if summarize then summary s else s in
      ret (triple_quote ++ rstrip s ++ "." ++ triple_quote)
  | _ => raise AttributeError
  end.

(** The keyword dict of an attribute: its values are printed with [format]
    later, so they stay the values they are. *)
Definition kwds_t : Type := list (string * json).

Definition kwds_to_str (kwds : kwds_t) : string :=
  let vals :=
    join ", " (map (fun kv => fst kv ++ "=" ++ py_str (snd kv))
                   (filter (fun kv => negb (String.eqb (fst kv) "help"))
                           (sorted_items kwds))) in
  match lookup "help" kwds with
  | Some h => vals ++ ", help=" ++ py_str h
  | None => vals
  end.

Definition get_attr_kwds (attr_dict : json) : result kwds_t :=
  let kwds := [("allow_none", JStr "True"); ("default_value", JStr "None")] in
  has_description <- py_in "description" attr_dict ;;
  kwds <- (if has_description : bool
           then description <- py_getitem attr_dict "description" ;;
                help <- format_help_string description true ;;
                ret (dict_set "help" (JStr help) kwds)
           else ret kwds) ;;
  has_minimum <- py_in "minimum" attr_dict ;;
  kwds <- (if has_minimum : bool
           then minimum <- py_getitem attr_dict "minimum" ;;
                ret (dict_set "min" minimum kwds)
           else ret kwds) ;;
  has_maximum <- py_in "maximum" attr_dict ;;
  kwds <- (if has_maximum : bool
           then maximum <- py_getitem attr_dict "maximum" ;;
                ret (dict_set "max" maximum kwds)
           else ret kwds) ;;
  ret kwds.

(** [instance_str(cls, *args, **kwds)] *)
Definition instance_str (cls : string) (args : list string) (kwds : kwds_t) : string :=
  let args := match args with
              | [] => EmptyString
              | _ => join ", " (sorted args) ++ ", "
              end in
  "T." ++ cls ++ "(" ++ args ++ kwds_to_str kwds ++ ")".

(** ** ObjectDefinition: the attribute resolver *)

(** The resolver methods read [self.schema] and append to [self.imports]:
    a computation takes the import list and returns it with its value, or
    raises. *)
Definition M (A : Type) : Type := list string -> result (A * list string).

Definition lift (A : Type) (m : result A) : M A :=
  fun imports => a <- m ;; ret (a, imports).

Definition mbind (A B : Type) (m : M A) (k : A -> M B) : M B :=
  fun imports =>
    match m imports with
    | inl e => inl e
    | inr (a, imports') => k a imports'
    end.

Definition mret (A : Type) (a : A) : M A := fun imports => ret (a, imports).
Definition mraise (A : Type) (e : exn) : M A := fun _ => raise e.
Arguments mraise {A} e.

(** [self.imports.append(line)] *)
Definition append_import (line : string) : M unit :=
  fun imports => ret (tt, (imports ++ [line])%list).

Declare Scope M_scope.
Delimit Scope M_scope with M.
Notation "x <~ m ;; k" := (mbind m (fun x => k))
  (at level 61, m at next level, right associativity) : M_scope.

(** A generator expression consumed from the left: the calls run in order
    and the first exception ends the loop. *)
Section ForEach.
Variables A B : Type.
Variable f : A -> M B.

Fixpoint for_each (l : list A) : M (list B) :=
  match l with
  | [] => mret []
  | x :: r => (y <~ f x ;; ys <~ for_each r ;; mret (y :: ys))%M
  end.
End ForEach.

(** [any_attribute] on a str [s], which a loop over a dict or over a str
    meets: the membership tests are substring tests, and no branch can index
    a str by a key. *)
Definition str_attribute (s : string) : M string :=
  if (contains "type" s || contains "$ref" s || contains "oneOf" s)%bool
  then mraise TypeError
  else mraise (NotImplementedError "unrecognized attribute keys").

Section Resolver.
(** [self.schema] *)
Variable schema : json.

Definition ref_attribute (attr_dict : json) : M string :=
  (kwds <~ lift (get_attr_kwds attr_dict) ;;
   parts <~ lift (ref <- py_getitem attr_dict "$ref" ;; py_split ref "/") ;;
   match parts with
   | [_; _; name] =>
       _ <~ append_import ("from ." ++ lower name ++ " import " ++ name) ;;
       reftype <~ lift (definitions <- py_getitem schema "definitions" ;;
                        definition <- py_getitem definitions name ;;
                        py_getitem definition "type") ;;
       if py_eq_str reftype "object"
       then mret (instance_str "Instance" [name] kwds)
       else if py_eq_str reftype "string"
       then mret (name ++ "(" ++ kwds_to_str kwds ++ ")")
       else mraise (NotImplementedError ("type = '" ++ py_str reftype ++ "'"))
   | _ => mraise ValueError
   end)%M.

(** The methods that call [any_attribute], over the function they call. *)
Section Methods.
Variable any_attribute : json -> M string.

Definition type_attribute_of (attr_dict : json) : M string :=
  (kwds <~ lift (get_attr_kwds attr_dict) ;;
   tp <~ lift (py_getitem attr_dict "type") ;;
   if py_eq_str tp "array"
   then resolve_items <~ lift (py_getitem_with any_attribute attr_dict "items") ;;
        typename <~ resolve_items ;;
        mret (instance_str "List" [typename] kwds)
   else if py_eq_str tp "boolean" then mret (instance_str "Bool" [] kwds)
   else if py_eq_str tp "number" then mret (instance_str "CFloat" [] kwds)
   else if py_eq_str tp "string" then mret (instance_str "Unicode" [] kwds)
   else if py_eq_str tp "object" then mret (instance_str "Any" [] kwds)
   else mraise (NotImplementedError (py_str tp)))%M.

(** [(self.any_attribute(attr) for attr in alternatives)]: a list gives
    its elements, a dict its keys, a str its characters; the other
    values cannot be iterated. *)
Definition resolve_each (alternatives : json) : M (list string) :=
  match alternatives with
  | JArr l => for_each any_attribute l
  | JObj kvs => for_each str_attribute (map fst kvs)
  | JStr s =>
      for_each str_attribute
               (map (fun c => String c EmptyString) (list_ascii_of_string s))
  | _ => mraise TypeError
  end.

Definition oneof_attribute_of (attr_dict : json) : M string :=
  (resolve_alternatives <~ lift (py_getitem_with resolve_each attr_dict "oneOf") ;;
   types <~ resolve_alternatives ;;
   mret ("T.Union([" ++ join ", " (sorted types) ++ "])"))%M.
End Methods.

Fixpoint any_attribute (attr_dict : json) {struct attr_dict} : M string :=
  (has_type <~ lift (py_in "type" attr_dict) ;;
   if has_type : bool then type_attribute_of any_attribute attr_dict
   else
     has_ref <~ lift (py_in "$ref" attr_dict) ;;
     if has_ref : bool then ref_attribute attr_dict
     else
       has_oneof <~ lift (py_in "oneOf" attr_dict) ;;
       if has_oneof : bool then oneof_attribute_of any_attribute attr_dict
       else mraise (NotImplementedError "unrecognized attribute keys"))%M.

Definition type_attribute : json -> M string := type_attribute_of any_attribute.
Definition oneof_attribute : json -> M string := oneof_attribute_of any_attribute.
End Resolver.

(** ** The definition classes *)

(** The fields [__init__] sets.  [StringDefinition] has no [prop_dict]. *)
Record StringDefinition : Type := mkStringDefinition {
  sd_name : string;
  sd_schema : json;
  sd_definition : json;
  sd_imports : list string
}.

Record ObjectDefinition : Type := mkObjectDefinition {
  od_name : string;
  od_schema : json;
  od_definition : json;
  od_prop_dict : json;
  od_imports : list string
}.

Inductive SchemaDefinition : Type :=
| StringDef (self : StringDefinition)
| ObjectDef (self : ObjectDefinition).

Definition StringDefinition_new (name : string) (schema : json)
  : result StringDefinition :=
  definitions <- py_getitem schema "definitions" ;;
  definition <- py_getitem definitions name ;;
  ret (mkStringDefinition name schema definition ["import traitlets as T"]).

Definition ObjectDefinition_new (name : string) (schema : json)
  : result ObjectDefinition :=
  definitions <- py_getitem schema "definitions" ;;
  definition <- py_getitem definitions name ;;
  prop_dict <- py_getitem definition "properties" ;;
  ret (mkObjectDefinition name schema definition prop_dict
         ["import traitlets as T"; "from ..baseobject import BaseObject"]).

(** [SchemaDefinition.init] *)
Definition init (name : string) (schema : json) : result SchemaDefinition :=
  definitions <- py_getitem schema "definitions" ;;
  definition <- py_getitem definitions name ;;
  typ <- py_getitem definition "type" ;;
  if py_eq_str typ "object"
  then self <- ObjectDefinition_new name schema ;; ret (ObjectDef self)
  else if py_eq_str typ "string"
  then self <- StringDefinition_new name schema ;; ret (StringDef self)
  else raise (NotImplementedError ("Definition type='" ++ py_str typ ++ "'")).

Definition enum_template (cls values : string) : string :=
  "class " ++ cls ++ "(T.Enum):" ++ nl ++
  "    def __init__(self, default_value=T.Undefined, **metadata):" ++ nl ++
  "        super(" ++ cls ++ ", self).__init__(" ++ values ++ "," ++ nl ++
  "                                    default_value=default_value," ++ nl ++
  "                                    **metadata)".

Definition string_template (cls : string) : string :=
  "class " ++ cls ++ "(T.Unicode):" ++ nl ++
  "    pass".

Definition StringDefinition_code (self : StringDefinition) : result string :=
  has_enum <- py_in "enum" (sd_definition self) ;;
  if has_enum : bool
  then values <- py_getitem (sd_definition self) "enum" ;;
       ret (enum_template (sd_name self) (py_str values))
  else ret (string_template (sd_name self)).

Definition class_template (name : string) : string :=
  "class " ++ name ++ "(BaseObject):" ++ nl.

Definition attr_template (key value : string) : string :=
  "    " ++ key ++ " = " ++ value ++ nl.

(** One step of the generator expression in [ObjectDefinition.code] *)
Definition attribute_line (schema : json) (item : string * json) : M string :=
  (value <~ any_attribute schema (snd item) ;;
   mret (attr_template (fst item) value))%M.

(** [ObjectDefinition.code]: the text, and the object with the imports the
    resolver appended. *)
Definition ObjectDefinition_code (self : ObjectDefinition)
  : result (string * ObjectDefinition) :=
  items <- py_items (od_prop_dict self) ;;
  '(lines, imports) <- for_each (attribute_line (od_schema self))
                                (sorted_items items) (od_imports self) ;;
  ret (class_template (od_name self) ++ join EmptyString lines,
       mkObjectDefinition (od_name self) (od_schema self) (od_definition self)
                          (od_prop_dict self) imports).

Definition name_of (self : SchemaDefinition) : string :=
  match self with
  | StringDef s => sd_name s
  | ObjectDef o => od_name o
  end.

Definition imports_of (self : SchemaDefinition) : list string :=
  match self with
  | StringDef s => sd_imports s
  | ObjectDef o => od_imports o
  end.

(** [self.code()] *)
Definition code (self : SchemaDefinition) : result (string * SchemaDefinition) :=
  match self with
  | StringDef s => text <- StringDefinition_code s ;; ret (text, StringDef s)
  | ObjectDef o => '(text, o') <- ObjectDefinition_code o ;; ret (text, ObjectDef o')
  end.

Definition class_definition (self : SchemaDefinition)
  : result (string * SchemaDefinition) :=
  '(code, self) <- code self ;;
  let imports := join nl (imports_of self) in
  ret (file_comment ++ nl ++ nl ++ imports ++ nl ++ nl ++ nl ++ code ++ nl, self).

Definition test_script (self : SchemaDefinition) : string :=
  file_comment ++ nl ++ nl ++ test_template (name_of self).

(** ** VegaLiteSchema: the run over all definitions *)

Definition all_strs (l : list json) : option (list string) :=
  fold_right (fun v acc =>
                match v, acc with
                | JStr s, Some r => Some (s :: r)
                | _, _ => None
                end) (Some []) l.

(** [sorted(self.schema['definitions'])]: the sorted keys of the mapping.
    A str gives its sorted characters and a list of strs its sorted
    elements (the first [init] then fails on the subscript).  A list with
    other values fails in Python in [sorted] or at the first subscript, with
    an error that depends on the values; here it raises TypeError at once. *)
Definition sorted_names (definitions : json) : result (list string) :=
  match definitions with
  | JObj kvs => ret (sorted (map fst kvs))
  | JStr s => ret (sorted (map (fun c => String c EmptyString) (list_ascii_of_string s)))
  | JArr l =>
      match all_strs l with
      | Some names => ret (sorted names)
      | None => raise TypeError
      end
  | _ => raise TypeError
  end.

(** The generator [definitions]: the names in sorted order, each with the
    outcome of the [init] that runs when the pair is asked for.  A consumer
    gets the pairs before the first outcome that is an exception, and then
    that exception: nothing after it is ever asked for. *)
Definition definitions (schema : json)
  : result (list (string * result SchemaDefinition)) :=
  defs <- py_getitem schema "definitions" ;;
  names <- sorted_names defs ;;
  ret (map (fun name => (name, init name schema)) names).

(** The files under [codedir], by their path relative to it: text files in
    a directory that can be written to, where the paths of the definitions
    are file names that differ from each other and from the index. *)
Definition files : Type := list (string * string).

(** [open(path, 'w')] followed by [write(text)] *)
Definition write_file (path text : string) (fs : files) : files :=
  dict_set path text fs.

(** A further [write] to a file that is still open *)
Definition append_file (path text : string) (fs : files) : files :=
  match lookup path fs with
  | Some old => dict_set path (old ++ text) fs
  | None => dict_set path text fs
  end.

(** The loop of [write_python_wrappers].  A code file is opened, and so
    emptied, before [class_definition] runs.  The outcome is the files as
    they are when the loop ends, and the exception that ended it, if any. *)
Fixpoint write_modules (defs : list (string * result SchemaDefinition)) (fs : files)
  : files * option exn :=
  match defs with
  | [] => (fs, None)
  | (name, inl e) :: _ => (fs, Some e)
  | (name, inr obj) :: rest =>
      let module := lower name in
      let codepath := module ++ ".py" in
      let fs := write_file codepath EmptyString fs in
      match class_definition obj with
      | inl e => (fs, Some e)
      | inr (text, obj) =>
          let fs := write_file codepath text fs in
          let fs := write_file ("tests/test_" ++ module ++ ".py") (test_script obj) fs in
          let fs := append_file "__init__.py"
                                (nl ++ "from ." ++ module ++ " import " ++ name) fs in
          write_modules rest fs
      end
  end.

Definition write_python_wrappers (schema : json) (fs : files) : files * option exn :=
  let fs := write_file "tests/__init__.py"
              (triple_quote ++ "Auto-generated unit tests wrappers for vegalite schema"
                            ++ triple_quote ++ nl) fs in
  let fs := write_file "__init__.py"
              (triple_quote ++ "Auto-generated Python wrappers for vegalite schema"
                            ++ triple_quote ++ nl) fs in
  match definitions schema with
  | inl e => (fs, Some e)
  | inr defs => write_modules defs fs
  end.

(** ** Notions the properties are stated with *)

(** The import line of a referenced definition, as [ref_attribute] writes
    it. *)
Definition import_line (name : string) : string :=
  "from ." ++ lower name ++ " import " ++ name.

(** The targets of the References met while a descriptor is resolved, in
    the order they are met: the target of a '$ref' descriptor, the
    References of the items of an array, the References of the alternatives
    of a union one after the other.  The shape of a descriptor is the one
    the resolver takes it for. *)
Fixpoint references (d : json) : list string :=
  match d with
  | JObj kvs =>
      if has_key "type" kvs then
        match lookup "type" kvs with
        | Some tp =>
            if py_eq_str tp "array"
            then match lookup_with references "items" kvs with
                 | Some targets => targets
                 | None => []
                 end
            else []
        | None => []
        end
      else if has_key "$ref" kvs then
        match lookup "$ref" kvs with
        | Some (JStr ref) =>
            match split "/" ref with
            | [_; _; name] => [name]
            | _ => []
            end
        | _ => []
        end
      else if has_key "oneOf" kvs then
        match lookup_with (fun alternatives =>
                             match alternatives with
                             | JArr l => flat_map references l
                             | _ => []
                             end) "oneOf" kvs with
        | Some targets => targets
        | None => []
        end
      else []
  | _ => []
  end.

Definition references_each (alternatives : json) : list string :=
  match alternatives with
  | JArr l => flat_map references l
  | _ => []
  end.

(** A computation that only appends to the import list, and whose outcome
    does not depend on the list it starts from. *)
Definition framed (A : Type) (m : M A) : Prop :=
  forall imports,
    m imports = match m [] with
                | inl e => inl e
                | inr (a, new) => inr (a, (imports ++ new)%list)
                end.

(** The outcome of a step of a loop, run on the empty import list *)
Definition gives (A B : Type) (f : A -> M B) (x : A) (y : B) : Prop :=
  exists new, f x [] = inr (y, new).

(** [renders schema d t]: resolving the descriptor [d] succeeds, with the
    text [t]. *)
Definition renders (schema : json) (d : json) (t : string) : Prop :=
  exists new, any_attribute schema d [] = inr (t, new).

Definition key_le (A : Type) (key : A -> string) (x y : A) : Prop :=
  String.leb (key x) (key y) = true.

Definition str_le (a b : string) : Prop := String.leb a b = true.

(** Two readings of one schema document may list the bindings of a dict in
    different orders.  [same_definition]: the same definition, its
    properties listed in any order.  [same_schema]: the same definitions,
    listed in any order. *)
Definition same_properties (p p' : option json) : Prop :=
  p = p' \/
  exists props props',
    p = Some (JObj props) /\ p' = Some (JObj props')
    /\ wf_dict props /\ Permutation props props'.

Definition same_definition (d d' : json) : Prop :=
  d = d' \/
  exists kvs kvs',
    d = JObj kvs /\ d' = JObj kvs'
    /\ (forall k, k <> "properties" -> lookup k kvs = lookup k kvs')
    /\ same_properties (lookup "properties" kvs) (lookup "properties" kvs').

Definition same_schema (schema schema' : json) : Prop :=
  exists defs defs',
    py_getitem schema "definitions" = inr (JObj defs)
    /\ py_getitem schema' "definitions" = inr (JObj defs')
    /\ Permutation (map fst defs) (map fst defs')
    /\ forall name,
        match lookup name defs, lookup name defs' with
        | Some d, Some d' => same_definition d d'
        | None, None => True
        | _, _ => False
        end.

(** What the run uses of a definition object: the class text, or the
    exception, and the test text. *)
Definition generated (self : SchemaDefinition) : result (string * string) :=
  '(text, self) <- class_definition self ;;
  ret (text, test_script self).

Definition same_generated (r r' : result SchemaDefinition) : Prop :=
  match r, r' with
  | inl e, inl e' => e = e'
  | inr self, inr self' => generated self = generated self'
  | _, _ => False
  end.

(** ** Notions for the further properties *)

(** The help text made from a description *)
Definition help_text (description : string) : string :=
  triple_quote ++ rstrip (summary description) ++ "." ++ triple_quote.

(** One optional keyword of a rendered attribute, before [rest] *)
Definition opt_kwd (label : string) (value : option string) (rest : string) : string :=
  match value with
  | Some v => ", " ++ label ++ "=" ++ v ++ rest
  | None => rest
  end.

(** The keywords of an attribute as they are printed: the two fixed ones,
    then the bounds, then the help text. *)
Definition rendered_kwds (maximum minimum : option json) (help : option string)
  : string :=
  "allow_none=True, default_value=None"
  ++ opt_kwd "max" (option_map py_str maximum)
       (opt_kwd "min" (option_map py_str minimum)
          (opt_kwd "help" help EmptyString)).

Definition description_help (description : option json) : option string :=
  match description with
  | Some (JStr s) => Some (help_text s)
  | _ => None
  end.

(** The traitlet class of a scalar 'type' *)
Definition traitlet_of (tp : string) : option string :=
  if String.eqb tp "boolean" then Some "Bool"
  else if String.eqb tp "number" then Some "CFloat"
  else if String.eqb tp "string" then Some "Unicode"
  else if String.eqb tp "object" then Some "Any"
  else None.

(** [s[n:]] *)
Fixpoint drop (n : nat) (s : string) : string :=
  match n, s with
  | S k, String _ s' => drop k s'
  | _, _ => s
  end.

(** [self.schema['definitions'][name]['type']], all the resolver reads of a
    referenced definition *)
Definition target_type (schema : json) (name : string) : result json :=
  definitions <- py_getitem schema "definitions" ;;
  definition <- py_getitem definitions name ;;
  py_getitem definition "type".

(** The sample schema with nothing but the types of its definitions *)
Definition sample_types_only : json :=
  JObj [("definitions",
         JObj [("Mark", JObj [("type", JStr "object")]);
               ("Color", JObj [("type", JStr "string")])])].

(** A definition that refers to itself *)
Definition node_schema : json :=
  JObj [("definitions",
         JObj [("Node",
                JObj [("type", JStr "object");
                      ("properties",
                       JObj [("next", JObj [("$ref", JStr "#/definitions/Node")])])])])].

(** What a [for] loop over the generator [definitions] receives: the pairs
    yielded before the first [init] that raises, and the exception that
    ends the loop, if any. *)
Fixpoint yielded (defs : list (string * result SchemaDefinition))
  : list (string * SchemaDefinition) * option exn :=
  match defs with
  | [] => ([], None)
  | (name, inl e) :: _ => ([], Some e)
  | (name, inr obj) :: rest =>
      let '(pairs, e) := yielded rest in ((name, obj) :: pairs, e)
  end.

(** Text within ASCII, on which [lower], [rstrip] and [repr_str] are what
    Python computes; a float carries the text Python prints, which is
    ASCII. *)
Definition is_ascii_char (c : ascii) : bool := Nat.ltb (nat_of_ascii c) 128.

Fixpoint is_ascii (s : string) : bool :=
  match s with
  | EmptyString => true
  | String c s' => (is_ascii_char c && is_ascii s')%bool
  end.

Fixpoint ascii_json (v : json) : bool :=
  match v with
  | JStr s => is_ascii s
  | JArr l => forallb ascii_json l
  | JObj kvs => forallb (fun kv => (is_ascii (fst kv) && ascii_json (snd kv))%bool) kvs
  | _ => true
  end.

(** A plain str: printable ASCII characters other than the single quote
    and the backslash *)
Definition plain_char (c : ascii) : bool :=
  let n := nat_of_ascii c in
  (Nat.leb 32 n && Nat.ltb n 127
   && negb (Ascii.eqb c "'") && negb (Ascii.eqb c "\"))%bool.

Fixpoint plain (s : string) : bool :=
  match s with
  | EmptyString => true
  | String c s' => (plain_char c && plain s')%bool
  end.

(** ** A sample schema *)

(** An enumeration, and an object with a bounded number, a Reference, an
    array of References to the same target and a union. *)
Definition color_def : json :=
  JObj [("type", JStr "string");
        ("enum", JArr [JStr "red"; JStr "green"; JStr "blue"])].

Definition size_descriptor : json :=
  JObj [("description", JStr "Size of marks (e.g. 30).  Default is 10.");
        ("type", JStr "number");
        ("minimum", JInt 0)].

Definition number_descriptor : json := JObj [("type", JStr "number")].
Definition boolean_descriptor : json := JObj [("type", JStr "boolean")].

Definition filled_descriptor : json :=
  JObj [("description", JStr "Whether the mark is filled.");
        ("oneOf", JArr [number_descriptor; boolean_descriptor])].

Definition mark_props : list (string * json) :=
  [("size", size_descriptor);
   ("color", JObj [("$ref", JStr "#/definitions/Color")]);
   ("palette", JObj [("type", JStr "array");
                     ("items", JObj [("$ref", JStr "#/definitions/Color")])]);
   ("filled", filled_descriptor)].

Definition mark_def : json :=
  JObj [("type", JStr "object"); ("properties", JObj mark_props)].

Definition sample_schema : json :=
  JObj [("definitions", JObj [("Mark", mark_def); ("Color", color_def)])].

(** The same document read with the bindings in another order *)
Definition sample_schema_reordered : json :=
  JObj [("definitions",
         JObj [("Color", color_def);
               ("Mark", JObj [("properties", JObj (rev mark_props));
                              ("type", JStr "object")])])].

Definition mark_self : ObjectDefinition :=
  mkObjectDefinition "Mark" sample_schema mark_def (JObj mark_props)
                     ["import traitlets as T"; "from ..baseobject import BaseObject"].

Definition color_self : StringDefinition :=
  mkStringDefinition "Color" sample_schema color_def ["import traitlets as T"].

(** An object definition without properties *)
Definition bare_schema : json :=
  JObj [("definitions", JObj [("Mark", JObj [("type", JStr "object")])])].

(** A descriptor with the three shape keys at once *)
Definition mixed_descriptor : json :=
  JObj [("oneOf", JArr []);
        ("$ref", JStr "#/definitions/Color");
        ("type", JStr "number")].

Definition union_text : string :=
  "T.Union([T.Bool(allow_none=True, default_value=None), "
  ++ "T.CFloat(allow_none=True, default_value=None)])".

(** * Properties *)

(** ** The order on strs and [sorted] *)

Lemma leb_refl (s : string) : String.leb s s = true.
Proof.
  destruct (String.leb_total s s); assumption.
Qed.

Lemma leb_trans (a b c : string) :
  String.leb a b = true -> String.leb b c = true -> String.leb a c = true.
Proof.
  unfold String.leb. revert b c.
  induction a as [|ca a IH]; intros [|cb b] [|cc c]; simpl; try congruence.
  unfold Ascii.compare.
  destruct (N.compare_spec (N_of_ascii ca) (N_of_ascii cb)),
           (N.compare_spec (N_of_ascii cb) (N_of_ascii cc)),
           (N.compare_spec (N_of_ascii ca) (N_of_ascii cc));
    try congruence; try lia.
  apply IH.
Qed.

Section SortedFacts.
Variable A : Type.
Variable key : A -> string.

Lemma insert_sorted_perm (x : A) (l : list A) :
  Permutation (x :: l) (insert_sorted key x l).
Proof.
  induction l as [|y l IH]; simpl.
  - apply Permutation_refl.
  - destruct (String.leb (key x) (key y)).
    + apply Permutation_refl.
    + eapply perm_trans; [apply perm_swap|]. now apply perm_skip.
Qed.

Lemma sorted_by_perm (l : list A) : Permutation l (sorted_by key l).
Proof.
  induction l as [|x l IH]; simpl.
  - constructor.
  - eapply perm_trans; [|apply insert_sorted_perm]. now apply perm_skip.
Qed.

Lemma insert_sorted_strongly (x : A) (l : list A) :
  StronglySorted (key_le key) l -> StronglySorted (key_le key) (insert_sorted key x l).
Proof.
  induction 1 as [|y l Hl IH Hy]; simpl.
  - repeat constructor.
  - destruct (String.leb (key x) (key y)) eqn:E.
    + constructor; [now constructor|].
      constructor; [exact E|].
      eapply Forall_impl; [|exact Hy].
      intros z Hz. unfold key_le in *. eapply leb_trans; eassumption.
    + constructor; [exact IH|].
      eapply Permutation_Forall; [apply insert_sorted_perm|].
      constructor; [|exact Hy].
      unfold key_le. destruct (String.leb_total (key x) (key y)); congruence.
Qed.

Lemma sorted_by_strongly (l : list A) : StronglySorted (key_le key) (sorted_by key l).
Proof.
  induction l; simpl; [constructor | now apply insert_sorted_strongly].
Qed.

(** Two sorted lists with the same elements are the same list, when no
    two elements share a key. *)
Lemma strongly_sorted_unique (l1 l2 : list A) :
  (forall x y, In x l1 -> In y l1 -> key x = key y -> x = y) ->
  StronglySorted (key_le key) l1 -> StronglySorted (key_le key) l2 ->
  Permutation l1 l2 -> l1 = l2.
Proof.
  revert l2. induction l1 as [|a t1 IH]; intros l2 Hinj S1 S2 P.
  - now apply Permutation_nil in P.
  - destruct l2 as [|b t2]; [now apply Permutation_sym, Permutation_nil in P|].
    inversion S1 as [|? ? S1' F1]; inversion S2 as [|? ? S2' F2]; subst.
    assert (Hab : a = b).
    { assert (Ia : In a (b :: t2)) by (eapply Permutation_in; [exact P|now left]).
      assert (Ib : In b (a :: t1))
        by (eapply Permutation_in; [apply Permutation_sym; exact P|now left]).
      destruct Ia as [->|Ia]; [reflexivity|].
      destruct Ib as [->|Ib]; [reflexivity|].
      rewrite Forall_forall in F1, F2.
      apply Hinj; [now left|now right|].
      apply String.leb_antisym; [apply F1, Ib | apply F2, Ia]. }
    subst b. f_equal.
    apply IH; auto.
    + intros x y Hx Hy. apply Hinj; now right.
    + eapply Permutation_cons_inv; exact P.
Qed.

Lemma sorted_by_permutation (l1 l2 : list A) :
  (forall x y, In x l1 -> In y l1 -> key x = key y -> x = y) ->
  Permutation l1 l2 -> sorted_by key l1 = sorted_by key l2.
Proof.
  intros Hinj P.
  apply strongly_sorted_unique; try apply sorted_by_strongly.
  - intros x y Hx Hy. apply Hinj; eapply Permutation_in;
      try eassumption; apply Permutation_sym, sorted_by_perm.
  - eapply perm_trans; [apply Permutation_sym, sorted_by_perm|].
    eapply perm_trans; [exact P|apply sorted_by_perm].
Qed.
End SortedFacts.

Lemma sorted_permutation (l1 l2 : list string) :
  Permutation l1 l2 -> sorted l1 = sorted l2.
Proof.
  intros P. apply sorted_by_permutation; auto.
Qed.

Lemma sorted_strongly (l : list string) :
  StronglySorted str_le (sorted l).
Proof.
  apply (sorted_by_strongly (fun s : string => s)).
Qed.

Lemma sorted_perm (l : list string) : Permutation l (sorted l).
Proof.
  apply sorted_by_perm.
Qed.

Lemma wf_dict_key_inj (A : Type) (kvs : list (string * A)) :
  wf_dict kvs ->
  forall x y, In x kvs -> In y kvs -> fst x = fst y -> x = y.
Proof.
  unfold wf_dict. induction kvs as [|kv kvs IH]; simpl; intros ND x y Hx Hy E.
  - contradiction.
  - inversion ND as [|? ? Hnin ND']; subst.
    destruct Hx as [->|Hx], Hy as [->|Hy]; auto.
    + exfalso. apply Hnin. rewrite E. now apply in_map.
    + exfalso. apply Hnin. rewrite <- E. now apply in_map.
Qed.

Lemma sorted_items_permutation (A : Type) (kvs kvs' : list (string * A)) :
  wf_dict kvs -> Permutation kvs kvs' -> sorted_items kvs = sorted_items kvs'.
Proof.
  intros W P. apply sorted_by_permutation; [now apply wf_dict_key_inj | exact P].
Qed.

Lemma sorted_items_keys (A : Type) (kvs : list (string * A)) :
  map fst (sorted_items kvs) = sorted (map fst kvs).
Proof.
  unfold sorted_items, sorted.
  induction kvs as [|kv kvs IH]; simpl; [reflexivity|].
  rewrite <- IH. generalize (sorted_by (@fst string A) kvs). intros l.
  induction l as [|y l IHl]; simpl; [reflexivity|].
  destruct (String.leb (fst kv) (fst y)); simpl; [reflexivity|now rewrite IHl].
Qed.

(** ** Induction on JSON values *)

Section JsonInduction.
Variable P : json -> Prop.
Hypothesis HNull : P JNull.
Hypothesis HBool : forall b, P (JBool b).
Hypothesis HInt : forall z, P (JInt z).
Hypothesis HFloat : forall r, P (JFloat r).
Hypothesis HStr : forall s, P (JStr s).
Hypothesis HArr : forall l, Forall P l -> P (JArr l).
Hypothesis HObj : forall kvs, Forall (fun kv => P (snd kv)) kvs -> P (JObj kvs).

Lemma json_induction : forall v, P v.
Proof.
  fix IH 1. intros v. destruct v as [ | b | z | r | s | l | kvs ].
  - apply HNull.
  - apply HBool.
  - apply HInt.
  - apply HFloat.
  - apply HStr.
  - apply HArr. induction l as [|x l IHl]; constructor; [apply IH | exact IHl].
  - apply HObj. induction kvs as [|[k x] kvs IHl]; constructor; [apply IH | exact IHl].
Qed.
End JsonInduction.

(** ** The dict operations *)

Lemma lookup_with_spec (B : Type) (f : json -> B) (k : string) kvs :
  lookup_with f k kvs = option_map f (lookup k kvs).
Proof.
  induction kvs as [|[k' v] kvs IH]; simpl; [reflexivity|].
  destruct (String.eqb k' k); [reflexivity | exact IH].
Qed.

Lemma py_getitem_with_spec (B : Type) (f : json -> B) (d : json) (k : string) :
  py_getitem_with f d k = (v <- py_getitem d k ;; ret (f v)).
Proof.
  destruct d; simpl; try reflexivity.
  rewrite lookup_with_spec. destruct (lookup k kvs); reflexivity.
Qed.

Lemma lookup_In (A : Type) (k : string) (kvs : list (string * A)) (v : A) :
  lookup k kvs = Some v -> In (k, v) kvs.
Proof.
  induction kvs as [|[k' v'] kvs IH]; simpl; [discriminate|].
  destruct (String.eqb_spec k' k) as [->|].
  - intros [= ->]. now left.
  - intros H. right. now apply IH.
Qed.

Lemma lookup_dict_set_other (A : Type) (k k' : string) (v : A) kvs :
  k <> k' -> lookup k (dict_set k' v kvs) = lookup k kvs.
Proof.
  intros Hk. induction kvs as [|[k0 v0] kvs IH]; simpl.
  - destruct (String.eqb_spec k' k); [congruence | reflexivity].
  - destruct (String.eqb_spec k0 k') as [->|]; simpl.
    + destruct (String.eqb_spec k' k); [congruence | reflexivity].
    + destruct (String.eqb k0 k); [reflexivity | exact IH].
Qed.

Lemma lookup_dict_set_same (A : Type) (k : string) (v : A) kvs :
  lookup k (dict_set k v kvs) = Some v.
Proof.
  induction kvs as [|[k0 v0] kvs IH]; simpl.
  - now rewrite String.eqb_refl.
  - destruct (String.eqb_spec k0 k) as [->|]; simpl.
    + now rewrite String.eqb_refl.
    + destruct (String.eqb_spec k0 k); [congruence | exact IH].
Qed.

Lemma lookup_permutation (A : Type) (k : string) (kvs kvs' : list (string * A)) :
  wf_dict kvs -> Permutation kvs kvs' -> lookup k kvs = lookup k kvs'.
Proof.
  intros W P. revert W. unfold wf_dict.
  induction P as [| [k0 v0] l l' P IH | [k1 v1] [k2 v2] l | l l' l'' P1 IH1 P2 IH2];
    intros W; simpl.
  - reflexivity.
  - inversion W; subst. destruct (String.eqb k0 k); auto.
  - inversion W as [|? ? N1 W1]; subst. simpl in N1.
    destruct (String.eqb_spec k1 k) as [->|], (String.eqb_spec k2 k) as [->|];
      try reflexivity.
    exfalso. apply N1. now left.
  - rewrite IH1 by assumption. apply IH2.
    eapply Permutation_NoDup; [|exact W]. now apply Permutation_map.
Qed.

(** ** The resolver only appends imports *)

Lemma framed_lift (A : Type) (m : result A) : framed (lift m).
Proof.
  intros st. unfold lift. destruct m; simpl; [reflexivity|].
  now rewrite app_nil_r.
Qed.

Lemma framed_mret (A : Type) (a : A) : framed (mret a).
Proof.
  intros st. unfold mret, ret. now rewrite app_nil_r.
Qed.

Lemma framed_mraise (A : Type) (e : exn) : framed (@mraise A e).
Proof.
  intros st. reflexivity.
Qed.

Lemma framed_append_import (line : string) : framed (append_import line).
Proof.
  intros st. reflexivity.
Qed.

Lemma framed_mbind (A B : Type) (m : M A) (k : A -> M B) :
  framed m -> (forall a, framed (k a)) -> framed (mbind m k).
Proof.
  intros Hm Hk st. unfold mbind.
  rewrite (Hm st). destruct (m []) as [e|[a n1]]; [reflexivity|].
  rewrite (Hk a (st ++ n1)%list), (Hk a n1).
  destruct (k a []) as [e|[b n2]]; [reflexivity|].
  now rewrite app_assoc.
Qed.

Lemma framed_for_each (A B : Type) (f : A -> M B) (l : list A) :
  Forall (fun x => framed (f x)) l -> framed (for_each f l).
Proof.
  induction 1 as [|x l Hx Hl IH]; simpl.
  - apply framed_mret.
  - apply framed_mbind; [exact Hx|]. intros y.
    apply framed_mbind; [exact IH|]. intros ys. apply framed_mret.
Qed.

Lemma framed_str_attribute (s : string) : framed (str_attribute s).
Proof.
  unfold str_attribute.
  destruct (contains "type" s || contains "$ref" s || contains "oneOf" s)%bool;
    apply framed_mraise.
Qed.

Create HintDb framed.
#[local] Hint Resolve framed_lift framed_mret framed_mraise framed_append_import
  framed_str_attribute : framed.

Lemma framed_ref_attribute (schema d : json) : framed (ref_attribute schema d).
Proof.
  unfold ref_attribute.
  apply framed_mbind; [auto with framed|]. intros kwds.
  apply framed_mbind; [auto with framed|]. intros parts.
  destruct parts as [|a [|b [|name [|? ?]]]]; auto with framed.
  apply framed_mbind; [auto with framed|]. intros _.
  apply framed_mbind; [auto with framed|]. intros reftype.
  destruct (py_eq_str reftype "object"); [auto with framed|].
  destruct (py_eq_str reftype "string"); auto with framed.
Qed.

Lemma any_attribute_unfold (schema d : json) :
  any_attribute schema d =
  (has_type <~ lift (py_in "type" d) ;;
   if has_type : bool then type_attribute schema d
   else
     has_ref <~ lift (py_in "$ref" d) ;;
     if has_ref : bool then ref_attribute schema d
     else
       has_oneof <~ lift (py_in "oneOf" d) ;;
       if has_oneof : bool then oneof_attribute schema d
       else mraise (NotImplementedError "unrecognized attribute keys"))%M.
Proof.
  destruct d; reflexivity.
Qed.

Lemma framed_mbind_lift (A B : Type) (r : result A) (k : A -> M B) :
  (forall a, r = inr a -> framed (k a)) -> framed (mbind (lift r) k).
Proof.
  intros H. destruct r as [e|a].
  - intros st; reflexivity.
  - intros st. unfold mbind, lift; simpl. apply (H a eq_refl).
Qed.

Lemma framed_type_attribute_of (f : json -> M string) (d : json) :
  (forall m, py_getitem_with f d "items" = inr m -> framed m) ->
  framed (type_attribute_of f d).
Proof.
  intros H. unfold type_attribute_of.
  apply framed_mbind; [auto with framed|]. intros kwds.
  apply framed_mbind; [auto with framed|]. intros tp.
  destruct (py_eq_str tp "array").
  { apply framed_mbind_lift. intros m Hm.
    apply framed_mbind; [now apply H|]. intros t. auto with framed. }
  repeat match goal with
         | |- framed (if ?b then _ else _) => destruct b; [auto with framed|]
         end.
  auto with framed.
Qed.

Lemma framed_oneof_attribute_of (f : json -> M string) (d : json) :
  (forall m, py_getitem_with (resolve_each f) d "oneOf" = inr m -> framed m) ->
  framed (oneof_attribute_of f d).
Proof.
  intros H. unfold oneof_attribute_of.
  apply framed_mbind_lift. intros m Hm.
  apply framed_mbind; [now apply H|]. intros ts. auto with framed.
Qed.

Lemma getitem_with_inv (B : Type) (f : json -> B) (d : json) (k : string) (b : B) :
  py_getitem_with f d k = inr b ->
  exists kvs v, d = JObj kvs /\ In (k, v) kvs /\ lookup k kvs = Some v /\ b = f v.
Proof.
  rewrite py_getitem_with_spec. destruct d; simpl; try discriminate.
  destruct (lookup k kvs) as [v|] eqn:E; simpl; [|discriminate].
  intros [= <-]. exists kvs, v. auto using lookup_In.
Qed.

Lemma framed_resolver (schema : json) :
  forall d, framed (any_attribute schema d) /\
            framed (resolve_each (any_attribute schema) d).
Proof.
  assert (Hstrs : forall l, framed (for_each str_attribute l)).
  { intros l. apply framed_for_each, Forall_forall. auto with framed. }
  assert (Hany : forall d,
             (forall kvs v, d = JObj kvs -> In v (map snd kvs) ->
                            framed (any_attribute schema v) /\
                            framed (resolve_each (any_attribute schema) v)) ->
             framed (any_attribute schema d)).
  { intros d H. rewrite any_attribute_unfold.
    apply framed_mbind; [auto with framed|]. intros [|].
    { apply framed_type_attribute_of. intros m Hm.
      apply getitem_with_inv in Hm as (kvs & v & -> & Hin & _ & ->).
      apply (H kvs v eq_refl). apply in_map_iff. eexists (_, v). split; [reflexivity|exact Hin]. }
    apply framed_mbind; [auto with framed|]. intros [|].
    { apply framed_ref_attribute. }
    apply framed_mbind; [auto with framed|]. intros [|]; [|auto with framed].
    apply framed_oneof_attribute_of. intros m Hm.
    apply getitem_with_inv in Hm as (kvs & v & -> & Hin & _ & ->).
    apply (H kvs v eq_refl). apply in_map_iff. eexists (_, v). split; [reflexivity|exact Hin]. }
  induction d as [ | b | z | r | s | l IHl | kvs IHkvs ] using json_induction;
    (split; [apply Hany; try discriminate | simpl; auto with framed]).
  - apply framed_for_each. eapply Forall_impl; [|exact IHl]. now intros v [H _].
  - intros kvs' v [= <-] Hin. apply in_map_iff in Hin as (kv & <- & Hin).
    rewrite Forall_forall in IHkvs. now apply IHkvs.
Qed.

Lemma framed_any_attribute (schema d : json) : framed (any_attribute schema d).
Proof.
  apply framed_resolver.
Qed.

(** What a resolution gives does not depend on the imports it starts
    from, and it adds the imports it would add to the empty list. *)
Lemma any_attribute_frame (schema d : json) (imports : list string) t imports' :
  any_attribute schema d imports = inr (t, imports') <->
  exists new, any_attribute schema d [] = inr (t, new) /\ imports' = (imports ++ new)%list.
Proof.
  rewrite (framed_any_attribute schema d imports).
  destruct (any_attribute schema d []) as [e|[t0 new]].
  - split; [discriminate | now intros (new & H & _)].
  - split.
    + intros [= <- <-]. now exists new.
    + intros (new' & [= <- <-] & ->). reflexivity.
Qed.

(** ** Dispatch on the shape of a descriptor *)

(** [str_attribute] is what the resolver does on a str. *)
Lemma any_attribute_str (schema : json) (s : string) (imports : list string) :
  any_attribute schema (JStr s) imports = str_attribute s imports.
Proof.
  rewrite any_attribute_unfold.
  unfold str_attribute, type_attribute, type_attribute_of, ref_attribute,
    oneof_attribute, oneof_attribute_of, get_attr_kwds, mbind, lift, mraise,
    bind, ret, raise.
  cbn [py_in py_getitem py_getitem_with ret raise].
  destruct (contains "type" s); cbn [orb].
  { destruct (contains "description" s); [reflexivity|].
    destruct (contains "minimum" s); [reflexivity|].
    destruct (contains "maximum" s); reflexivity. }
  destruct (contains "$ref" s); cbn [orb].
  { destruct (contains "description" s); [reflexivity|].
    destruct (contains "minimum" s); [reflexivity|].
    destruct (contains "maximum" s); reflexivity. }
  destruct (contains "oneOf" s); reflexivity.
Qed.

(** C9.  A descriptor with more than one of the keys 'type', '$ref' and
    'oneOf' is not refused: [any_attribute] takes the 'type' branch when
    'type' is present, otherwise the '$ref' branch when '$ref' is present,
    otherwise the 'oneOf' branch when 'oneOf' is present, whatever the other
    keys are, and it raises the unrecognized-keys error itself exactly when
    none of the three is present. *)
Theorem any_attribute_priority (schema d : json) :
  (py_in "type" d = inr true ->
   any_attribute schema d = type_attribute schema d)
  /\ (py_in "type" d = inr false -> py_in "$ref" d = inr true ->
      any_attribute schema d = ref_attribute schema d)
  /\ (py_in "type" d = inr false -> py_in "$ref" d = inr false ->
      py_in "oneOf" d = inr true ->
      any_attribute schema d = oneof_attribute schema d)
  /\ (py_in "type" d = inr false -> py_in "$ref" d = inr false ->
      py_in "oneOf" d = inr false ->
      forall imports,
        any_attribute schema d imports
        = inl (NotImplementedError "unrecognized attribute keys")).
Proof.
  rewrite any_attribute_unfold.
  repeat split.
  - intros ->. reflexivity.
  - intros -> ->. reflexivity.
  - intros -> -> ->. reflexivity.
  - intros -> -> -> imports. reflexivity.
Qed.

(** ** References *)

(** C10.  Resolving a '$ref' descriptor succeeds exactly when its keywords
    can be derived, the '$ref' value is a str with exactly three segments
    between '/', and the third segment names an entry of the schema's
    definitions whose 'type' is "object" or "string"; any other number of
    segments, a missing target and a target of another kind make it fail. *)
Theorem ref_attribute_succeeds_iff (schema d : json) (imports : list string) :
  (exists t imports', ref_attribute schema d imports = inr (t, imports'))
  <->
  (exists kwds ref a b name definitions definition reftype,
      get_attr_kwds d = inr kwds
      /\ py_getitem d "$ref" = inr (JStr ref)
      /\ split "/" ref = [a; b; name]
      /\ py_getitem schema "definitions" = inr definitions
      /\ py_getitem definitions name = inr definition
      /\ py_getitem definition "type" = inr reftype
      /\ (reftype = JStr "object" \/ reftype = JStr "string")).
Proof.
  unfold ref_attribute, mbind, lift, append_import, mret, mraise, bind, ret, raise.
  split.
  - intros (t & imports' & H).
    destruct (get_attr_kwds d) as [e|kwds] eqn:Ek; [discriminate|].
    destruct (py_getitem d "$ref") as [e|ref] eqn:Er; [discriminate|].
    destruct ref as [ | | | | ref | | ]; try discriminate.
    cbn [py_split ret] in H.
    destruct (split "/" ref) as [|a [|b [|name [|? ?]]]] eqn:Es; try discriminate.
    destruct (py_getitem schema "definitions") as [e|definitions] eqn:Ed;
      [discriminate|].
    destruct (py_getitem definitions name) as [e|definition] eqn:En; [discriminate|].
    destruct (py_getitem definition "type") as [e|reftype] eqn:Et; [discriminate|].
    exists kwds, ref, a, b, name, definitions, definition, reftype.
    repeat split; try assumption.
    destruct reftype as [ | | | | s | | ]; try discriminate.
    cbn [py_eq_str] in H.
    destruct (String.eqb_spec s "object") as [->|]; [now left|].
    destruct (String.eqb_spec s "string") as [->|]; [now right|discriminate].
  - intros (kwds & ref & a & b & name & definitions & definition & reftype
            & Ek & Er & Es & Ed & En & Et & Ht).
    rewrite Ek, Er. cbn [py_split ret]. rewrite Es, Ed, En, Et.
    destruct Ht as [-> | ->]; cbn [py_eq_str String.eqb Ascii.eqb Bool.eqb]; eauto.
Qed.

(** ** Classification of a definition *)

(** C8, as the code has it.  A definition whose 'type' is neither "object"
    nor "string" makes [init] raise NotImplementedError with the text of
    that type in its message, and gives no definition object.  The type
    "string" gives a String definition.  The type "object" gives an Object
    definition when the definition has a 'properties' entry, and raises
    KeyError otherwise. *)
Theorem init_classifies (name : string) (schema definitions definition typ : json) :
  py_getitem schema "definitions" = inr definitions ->
  py_getitem definitions name = inr definition ->
  py_getitem definition "type" = inr typ ->
  (typ <> JStr "object" -> typ <> JStr "string" ->
   init name schema
   = inl (NotImplementedError ("Definition type='" ++ py_str typ ++ "'")))
  /\ (typ = JStr "string" ->
      init name schema
      = inr (StringDef (mkStringDefinition name schema definition
                                           ["import traitlets as T"])))
  /\ (typ = JStr "object" ->
      init name schema
      = match py_getitem definition "properties" with
        | inr prop_dict =>
            inr (ObjectDef (mkObjectDefinition
                              name schema definition prop_dict
                              ["import traitlets as T";
                               "from ..baseobject import BaseObject"]))
        | inl e => inl e
        end).
Proof.
  intros Hd Hn Ht.
  unfold init, ObjectDefinition_new, StringDefinition_new.
  rewrite Hd; simpl. rewrite Hn; simpl. rewrite Ht; simpl.
  repeat split.
  - intros Ho Hs.
    destruct typ as [ | | | | s | | ]; simpl; try reflexivity.
    destruct (String.eqb_spec s "object") as [->|]; [congruence|].
    destruct (String.eqb_spec s "string") as [->|]; [congruence|reflexivity].
  - intros ->. reflexivity.
  - intros ->. simpl. destruct (py_getitem definition "properties"); reflexivity.
Qed.

(** ** String definitions *)

Lemma py_getitem_in (d : json) (k : string) (v : json) :
  py_getitem d k = inr v -> py_in k d = inr true.
Proof.
  destruct d; simpl; try discriminate.
  unfold has_key. destruct (lookup k kvs); [reflexivity|discriminate].
Qed.

Lemma contains_char_cons (c a : ascii) (s : string) :
  contains (String c EmptyString) (String a s)
  = (if ascii_dec c a then true else contains (String c EmptyString) s).
Proof.
  cbn [contains prefix].
  destruct (ascii_dec c a); [destruct s|]; reflexivity.
Qed.

Lemma repr_chars_plain (s : string) :
  plain s = true -> repr_chars "'" s = s.
Proof.
  induction s as [|c s IH]; [reflexivity|].
  cbn [plain repr_chars]. intros H.
  apply Bool.andb_true_iff in H as [Hc Hs]. rewrite (IH Hs).
  unfold plain_char in Hc.
  apply Bool.andb_true_iff in Hc as [Hc Hb].
  apply Bool.andb_true_iff in Hc as [Hc Hq].
  apply Bool.andb_true_iff in Hc as [Hlo Hhi].
  apply Nat.leb_le in Hlo. apply Nat.ltb_lt in Hhi.
  apply Bool.negb_true_iff in Hq, Hb.
  unfold repr_char. rewrite Hq, Hb. cbn [orb].
  destruct (Nat.eqb_spec (nat_of_ascii c) 9); [lia|].
  destruct (Nat.eqb_spec (nat_of_ascii c) 10); [lia|].
  destruct (Nat.eqb_spec (nat_of_ascii c) 13); [lia|].
  destruct (Nat.ltb_spec (nat_of_ascii c) 32); [lia|].
  destruct (Nat.eqb_spec (nat_of_ascii c) 127); [lia|].
  reflexivity.
Qed.

Lemma plain_no_quote (s : string) : plain s = true -> contains "'" s = false.
Proof.
  induction s as [|c s IH]; [reflexivity|].
  cbn [plain]. intros H. apply Bool.andb_true_iff in H as [Hc Hs].
  rewrite contains_char_cons.
  destruct (ascii_dec "'" c) as [<-|_]; [discriminate Hc | now apply IH].
Qed.

(** A plain str is printed between single quotes as it is. *)
Lemma repr_str_plain (s : string) :
  plain s = true -> repr_str s = "'" ++ s ++ "'".
Proof.
  intros H. unfold repr_str. rewrite (plain_no_quote _ H). cbn [andb].
  now rewrite (repr_chars_plain _ H).
Qed.

Lemma map_repr_plain (strs : list string) :
  forallb plain strs = true ->
  map py_repr (map JStr strs) = map (fun s => "'" ++ s ++ "'") strs.
Proof.
  induction strs as [|s strs IH]; [reflexivity|].
  cbn [forallb map py_repr]. intros H.
  apply Bool.andb_true_iff in H as [Hs H].
  now rewrite (repr_str_plain _ Hs), (IH H).
Qed.

(** C5.  A String definition with an 'enum' list gives the enumeration
    class in which the list is embedded as Python prints it, value by value
    in the order of the list and never sorted: an enum of plain strs gives
    the strs between single quotes, and in general (for values within
    ASCII) every value is printed by [repr].  A String definition without
    'enum' gives the plain [T.Unicode] subclass. *)
Theorem string_definition_code (self : StringDefinition) :
  (forall strs,
      py_getitem (sd_definition self) "enum" = inr (JArr (map JStr strs)) ->
      forallb plain strs = true ->
      StringDefinition_code self
      = inr ("class " ++ sd_name self ++ "(T.Enum):" ++ nl
             ++ "    def __init__(self, default_value=T.Undefined, **metadata):" ++ nl
             ++ "        super(" ++ sd_name self ++ ", self).__init__("
             ++ ("[" ++ String.concat ", " (map (fun s => "'" ++ s ++ "'") strs) ++ "]")
             ++ "," ++ nl
             ++ "                                    default_value=default_value," ++ nl
             ++ "                                    **metadata)"))
  /\ (forall values,
         py_getitem (sd_definition self) "enum" = inr (JArr values) ->
         forallb ascii_json values = true ->
         StringDefinition_code self
         = inr ("class " ++ sd_name self ++ "(T.Enum):" ++ nl
                ++ "    def __init__(self, default_value=T.Undefined, **metadata):" ++ nl
                ++ "        super(" ++ sd_name self ++ ", self).__init__("
                ++ ("[" ++ String.concat ", " (map py_repr values) ++ "]")
                ++ "," ++ nl
                ++ "                                    default_value=default_value," ++ nl
                ++ "                                    **metadata)"))
  /\ (py_in "enum" (sd_definition self) = inr false ->
      StringDefinition_code self
      = inr ("class " ++ sd_name self ++ "(T.Unicode):" ++ nl ++ "    pass")).
Proof.
  unfold StringDefinition_code. repeat split.
  - intros strs H Hp. rewrite (py_getitem_in _ _ H); simpl bind. rewrite H.
    cbn [bind ret py_str py_repr]. unfold join. rewrite (map_repr_plain _ Hp).
    reflexivity.
  - intros values H _. rewrite (py_getitem_in _ _ H); simpl bind. rewrite H.
    reflexivity.
  - intros ->. reflexivity.
Qed.

(** ** The help text of an attribute *)

Lemma append_empty_r (s : string) : s ++ EmptyString = s.
Proof.
  induction s as [|c s IH]; simpl; [reflexivity | now rewrite IH].
Qed.

Lemma append_assoc (a b c : string) : (a ++ b) ++ c = a ++ (b ++ c).
Proof.
  induction a as [|x a IH]; simpl; [reflexivity | now rewrite IH].
Qed.

(** The first piece of a split is the text before the first separator. *)
Lemma hd_split_go (sep cur s : string) :
  hd EmptyString (split_go sep 0 cur s) = cur ++ take (first_index sep s) s.
Proof.
  revert cur. induction s as [|c s IH]; intros cur.
  - destruct sep; simpl; now rewrite append_empty_r.
  - cbn [split_go first_index]. destruct (prefix sep (String c s)).
    + simpl. now rewrite append_empty_r.
    + rewrite IH. simpl. now rewrite append_assoc.
Qed.

Lemma hd_split (sep s : string) :
  hd EmptyString (split sep s) = take (first_index sep s) s.
Proof.
  unfold split. now rewrite hd_split_go.
Qed.

Lemma take_take (n p : nat) (s : string) : take n (take p s) = take (Nat.min n p) s.
Proof.
  revert n p. induction s as [|c s IH]; intros [|n] [|p]; simpl; try reflexivity.
  now rewrite IH.
Qed.

Lemma first_index_char_cons (c a : ascii) (s : string) :
  first_index (String c EmptyString) (String a s)
  = if ascii_dec c a then 0 else S (first_index (String c EmptyString) s).
Proof.
  cbn [first_index prefix].
  destruct (ascii_dec c a); [destruct s|]; reflexivity.
Qed.

Lemma first_index_char_take (c : ascii) (p : nat) (s : string) :
  first_index (String c EmptyString) (take p s)
  = Nat.min (first_index (String c EmptyString) s) p.
Proof.
  revert p. induction s as [|a s IH]; intros [|p]; cbn [take];
    rewrite ?first_index_char_cons; try reflexivity.
  - now rewrite Nat.min_0_r.
  - destruct (ascii_dec c a); [reflexivity|]. now rewrite IH.
Qed.

(** The summary is the description cut at the first full stop or at the
    first "(e.g.", whichever comes first. *)
Lemma summary_cut (description : string) :
  summary description
  = take (Nat.min (first_index "." description) (first_index "(e.g." description))
         description.
Proof.
  unfold summary. rewrite !hd_split, first_index_char_take, take_take.
  f_equal. lia.
Qed.

(** ** Loops of resolutions *)

Section ForEachFacts.
Variables A B : Type.
Variable f : A -> M B.

Lemma for_each_gives (l : list A) (imports : list string) ys imports' :
  Forall (fun x => framed (f x)) l ->
  for_each f l imports = inr (ys, imports') -> Forall2 (gives f) l ys.
Proof.
  intros F. revert imports ys imports'.
  induction F as [|x l Hx Hl IH]; intros imports ys imports'; cbn [for_each].
  - unfold mret, ret. intros [= <- _]. constructor.
  - unfold mbind at 1. rewrite (Hx imports).
    destruct (f x []) as [e|[y n1]] eqn:E; [discriminate|].
    unfold mbind at 1.
    destruct (for_each f l (imports ++ n1)%list) as [e|[ys' st2]] eqn:E2;
      [discriminate|].
    unfold mret, ret. intros [= <- _].
    constructor; [now exists n1 | eapply IH; exact E2].
Qed.

Lemma gives_for_each (l : list A) (ys : list B) (imports : list string) :
  Forall (fun x => framed (f x)) l ->
  Forall2 (gives f) l ys -> exists imports', for_each f l imports = inr (ys, imports').
Proof.
  intros F G. revert imports F.
  induction G as [|x y l ys (n1 & Hxy) G IH]; intros imports F; cbn [for_each].
  - now exists imports.
  - inversion F as [|? ? Hx Hl]; subst.
    unfold mbind at 1. rewrite (Hx imports), Hxy.
    destruct (IH (imports ++ n1)%list Hl) as (st2 & E2).
    unfold mbind at 1. rewrite E2. now exists st2.
Qed.
End ForEachFacts.

Lemma Forall2_permutation (A B : Type) (R : A -> B -> Prop) (l l' : list A) :
  Permutation l l' ->
  forall ys, Forall2 R l ys -> exists ys', Permutation ys ys' /\ Forall2 R l' ys'.
Proof.
  induction 1 as [| x l l' P IH | x y l | l l' l'' P1 IH1 P2 IH2]; intros ys F.
  - inversion F; subst. exists []. split; constructor.
  - inversion F as [|? b ? ys0 Hb F0]; subst.
    destruct (IH _ F0) as (ys' & Py & F').
    exists (b :: ys'). split; [now constructor | now constructor].
  - inversion F as [|? b ? ys0 Hb F0]; subst.
    inversion F0 as [|? c ? ys1 Hc F1]; subst.
    exists (c :: b :: ys1). split; [apply perm_swap | repeat constructor; assumption].
  - destruct (IH1 _ F) as (ys1 & Py1 & F1).
    destruct (IH2 _ F1) as (ys2 & Py2 & F2).
    exists ys2. split; [eapply perm_trans; eassumption | exact F2].
Qed.

Lemma gives_renders (schema d : json) (t : string) :
  gives (any_attribute schema) d t <-> renders schema d t.
Proof.
  reflexivity.
Qed.

(** ** Unions *)

Lemma oneof_attribute_list (schema d : json) (alts : list json) :
  py_getitem d "oneOf" = inr (JArr alts) ->
  oneof_attribute schema d
  = (types <~ for_each (any_attribute schema) alts ;;
     mret ("T.Union([" ++ join ", " (sorted types) ++ "])"))%M.
Proof.
  intros H. unfold oneof_attribute, oneof_attribute_of.
  rewrite py_getitem_with_spec, H. reflexivity.
Qed.

(** A union is resolved from its alternatives alone: the description and
    the bounds of the descriptor play no part. *)
Lemma oneof_attribute_alternatives_only (schema d d' : json) (imports : list string) :
  py_getitem d "oneOf" = py_getitem d' "oneOf" ->
  oneof_attribute schema d imports = oneof_attribute schema d' imports.
Proof.
  intros H. unfold oneof_attribute, oneof_attribute_of, mbind, lift.
  now rewrite !py_getitem_with_spec, H.
Qed.

(** C3.  A 'oneOf' descriptor is rendered as [T.Union] of the texts of its
    alternatives in sorted order, and so two 'oneOf' descriptors whose
    alternatives are the same up to their order are rendered with the same
    text. *)
Theorem oneof_sorted_whatever_the_order
  (schema d : json) (alts : list json) (imports : list string) t imports' :
  py_getitem d "oneOf" = inr (JArr alts) ->
  oneof_attribute schema d imports = inr (t, imports') ->
  (exists rendered,
      Forall2 (renders schema) alts rendered
      /\ t = "T.Union([" ++ join ", " (sorted rendered) ++ "])"
      /\ StronglySorted str_le (sorted rendered)
      /\ Permutation rendered (sorted rendered))
  /\ (forall d2 alts2 imports2,
         py_getitem d2 "oneOf" = inr (JArr alts2) ->
         Permutation alts alts2 ->
         exists imports2', oneof_attribute schema d2 imports2 = inr (t, imports2')).
Proof.
  intros Hd H. rewrite (oneof_attribute_list schema _ Hd) in H.
  unfold mbind, mret, ret in H.
  destruct (for_each (any_attribute schema) alts imports) as [e|[ts st1]] eqn:E;
    [discriminate|].
  injection H as <- <-.
  assert (Fr : forall l, Forall (fun x => framed (any_attribute schema x)) l).
  { intros l. apply Forall_forall. intros x _. apply framed_any_attribute. }
  apply for_each_gives in E; [|apply Fr].
  split.
  - exists ts. repeat split.
    + exact E.
    + apply sorted_strongly.
    + apply sorted_perm.
  - intros d2 alts2 imports2 Hd2 P.
    destruct (Forall2_permutation P E) as (ts2 & Pts & E2).
    destruct (gives_for_each imports2 (Fr alts2) E2) as (st2 & E3).
    rewrite (oneof_attribute_list schema _ Hd2).
    unfold mbind, mret, ret. rewrite E3.
    rewrite (sorted_permutation Pts). now exists st2.
Qed.

(** ** The body of an object class *)

Lemma framed_attribute_line (schema : json) (item : string * json) :
  framed (attribute_line schema item).
Proof.
  unfold attribute_line. apply framed_mbind; [apply framed_any_attribute|].
  intros t. apply framed_mret.
Qed.

Lemma framed_attribute_lines (schema : json) (items : list (string * json)) :
  Forall (fun item => framed (attribute_line schema item)) items.
Proof.
  apply Forall_forall. intros item _. apply framed_attribute_line.
Qed.

Lemma attribute_line_gives (schema : json) (item : string * json) (line : string) :
  gives (attribute_line schema) item line <->
  exists t, renders schema (snd item) t /\ line = attr_template (fst item) t.
Proof.
  unfold gives, renders, attribute_line, mbind, mret, ret. split.
  - intros (new & H).
    destruct (any_attribute schema (snd item) []) as [e|[t n]]; [discriminate|].
    injection H as <- <-. exists t. split; [now exists n | reflexivity].
  - intros (t & (new & H) & ->). rewrite H. now exists new.
Qed.

(** The lines of a class body, as (property name, rendered text) pairs *)
Lemma attribute_lines_decls (schema : json) (items : list (string * json)) lines :
  Forall2 (gives (attribute_line schema)) items lines ->
  exists decls : list (string * string),
    lines = map (fun kt => attr_template (fst kt) (snd kt)) decls
    /\ map fst decls = map fst items
    /\ Forall2 (fun kv kt => fst kt = fst kv /\ renders schema (snd kv) (snd kt))
               items decls.
Proof.
  induction 1 as [|item line items lines H F IH].
  - exists []. repeat split; constructor.
  - destruct IH as (decls & -> & Hk & Hr).
    apply attribute_line_gives in H as (t & Ht & ->).
    exists ((fst item, t) :: decls). simpl. rewrite Hk.
    repeat split. constructor; [now split | exact Hr].
Qed.

(** C4.  The code of an Object definition whose properties are within
    ASCII is the line [class <name>(BaseObject):] followed by exactly one
    line [    <property> = <text>] per declared property, where the text is
    the one the descriptor of the property resolves to, in ascending order
    of property name; the code is the same whatever the order of the
    properties in the schema document. *)
Theorem object_code_sorted_properties
  (self self' : ObjectDefinition) (props : list (string * json)) (text : string) :
  od_prop_dict self = JObj props ->
  ascii_json (JObj props) = true ->
  ObjectDefinition_code self = inr (text, self') ->
  (exists decls : list (string * string),
      text = "class " ++ od_name self ++ "(BaseObject):" ++ nl
             ++ String.concat EmptyString
                  (map (fun kt => "    " ++ fst kt ++ " = " ++ snd kt ++ nl) decls)
      /\ map fst decls = sorted (map fst props)
      /\ List.length decls = List.length props
      /\ StronglySorted str_le (map fst decls)
      /\ Permutation (map fst props) (map fst decls)
      /\ Forall2 (fun kv kt => fst kt = fst kv
                               /\ renders (od_schema self) (snd kv) (snd kt))
                 (sorted_items props) decls)
  /\ (forall props2 definition2 imports2,
         wf_dict props -> Permutation props props2 ->
         exists self2',
           ObjectDefinition_code
             (mkObjectDefinition (od_name self) (od_schema self) definition2
                                 (JObj props2) imports2)
           = inr (text, self2')).
Proof.
  intros Hp _ H. unfold ObjectDefinition_code in H. rewrite Hp in H.
  cbn [py_items bind ret] in H.
  destruct (for_each (attribute_line (od_schema self)) (sorted_items props)
                     (od_imports self)) as [e|[lines st1]] eqn:E; [discriminate|].
  injection H as <- <-.
  apply for_each_gives in E; [|apply framed_attribute_lines].
  split.
  - destruct (attribute_lines_decls E) as (decls & -> & Hk & Hr).
    rewrite sorted_items_keys in Hk.
    exists decls. split; [|repeat split].
    + unfold class_template, join, attr_template.
      cbn [String.append]. rewrite !append_assoc. reflexivity.
    + exact Hk.
    + rewrite <- (length_map fst decls), Hk, <- (length_map fst props).
      symmetry. apply Permutation_length, sorted_perm.
    + rewrite Hk. apply sorted_strongly.
    + rewrite Hk. apply sorted_perm.
    + exact Hr.
  - intros props2 definition2 imports2 W P.
    unfold ObjectDefinition_code. cbn [od_prop_dict od_schema od_name od_imports
                                       od_definition py_items bind ret].
    rewrite <- (sorted_items_permutation W P).
    destruct (gives_for_each imports2 (framed_attribute_lines _ _) E) as (st2 & E2).
    rewrite E2. eexists. reflexivity.
Qed.

(** ** Imports *)

Lemma py_getitem_dict (d : json) (k : string) (v : json) :
  py_getitem d k = inr v -> exists kvs, d = JObj kvs /\ lookup k kvs = Some v.
Proof.
  destruct d; simpl; try discriminate.
  destruct (lookup k kvs) as [x|] eqn:E; [|discriminate].
  intros [= <-]. exists kvs. split; [reflexivity | exact E].
Qed.

Lemma type_attribute_of_inv (f : json -> M string) (d : json) imports t imports' :
  type_attribute_of f d imports = inr (t, imports') ->
  exists kwds tp,
    get_attr_kwds d = inr kwds /\ py_getitem d "type" = inr tp
    /\ ((py_eq_str tp "array" = true
         /\ exists v typename,
             py_getitem d "items" = inr v
             /\ f v imports = inr (typename, imports')
             /\ t = instance_str "List" [typename] kwds)
        \/ (py_eq_str tp "array" = false /\ imports' = imports)).
Proof.
  unfold type_attribute_of, mbind, lift, mret, mraise, bind, ret, raise.
  destruct (get_attr_kwds d) as [e|kwds]; [discriminate|].
  destruct (py_getitem d "type") as [e|tp]; [discriminate|].
  intros H. exists kwds, tp. split; [reflexivity|]. split; [reflexivity|].
  destruct (py_eq_str tp "array").
  - left. split; [reflexivity|].
    rewrite py_getitem_with_spec in H. unfold bind, ret in H.
    destruct (py_getitem d "items") as [e|v]; [discriminate|].
    destruct (f v imports) as [e|[typename st]] eqn:E; [discriminate|].
    injection H as <- <-. exists v, typename. repeat split. exact E.
  - right. split; [reflexivity|].
    repeat match type of H with
           | (if ?b then _ else _) _ = _ => destruct b
           end; congruence.
Qed.

Lemma ref_attribute_inv (schema d : json) imports t imports' :
  ref_attribute schema d imports = inr (t, imports') ->
  exists ref a b name,
    py_getitem d "$ref" = inr (JStr ref) /\ split "/" ref = [a; b; name]
    /\ imports' = (imports ++ [import_line name])%list.
Proof.
  unfold ref_attribute, mbind, lift, append_import, mret, mraise, bind, ret, raise.
  destruct (get_attr_kwds d) as [e|kwds]; [discriminate|].
  destruct (py_getitem d "$ref") as [e|ref]; [discriminate|].
  destruct ref as [ | | | | ref | | ]; try discriminate.
  cbn [py_split ret].
  destruct (split "/" ref) as [|a [|b [|name [|? ?]]]] eqn:Es; try discriminate.
  destruct (py_getitem schema "definitions") as [e|definitions]; [discriminate|].
  destruct (py_getitem definitions name) as [e|definition]; [discriminate|].
  destruct (py_getitem definition "type") as [e|reftype]; [discriminate|].
  intros H. exists ref, a, b, name. split; [reflexivity|]. split; [exact Es|].
  unfold import_line.
  destruct (py_eq_str reftype "object"); [congruence|].
  destruct (py_eq_str reftype "string"); congruence.
Qed.

Lemma oneof_attribute_of_inv (f : json -> M string) (d : json) imports t imports' :
  oneof_attribute_of f d imports = inr (t, imports') ->
  exists v types,
    py_getitem d "oneOf" = inr v
    /\ resolve_each f v imports = inr (types, imports')
    /\ t = "T.Union([" ++ join ", " (sorted types) ++ "])".
Proof.
  unfold oneof_attribute_of, mbind, lift, mret, bind, ret.
  rewrite py_getitem_with_spec. unfold bind, ret.
  destruct (py_getitem d "oneOf") as [e|v]; [discriminate|].
  destruct (resolve_each f v imports) as [e|[types st]] eqn:E; [discriminate|].
  intros [= <- <-]. exists v, types. repeat split. exact E.
Qed.

(** A resolution that succeeds is the resolution of a dict, through one
    of the three branches. *)
Lemma any_attribute_inv (schema d : json) imports t imports' :
  any_attribute schema d imports = inr (t, imports') ->
  exists kvs,
    d = JObj kvs
    /\ ((has_key "type" kvs = true
         /\ type_attribute schema d imports = inr (t, imports'))
        \/ (has_key "type" kvs = false /\ has_key "$ref" kvs = true
            /\ ref_attribute schema d imports = inr (t, imports'))
        \/ (has_key "type" kvs = false /\ has_key "$ref" kvs = false
            /\ has_key "oneOf" kvs = true
            /\ oneof_attribute schema d imports = inr (t, imports'))).
Proof.
  rewrite any_attribute_unfold. intros H.
  assert (Hd : exists kvs, d = JObj kvs).
  { unfold mbind, lift, bind, ret in H.
    destruct (py_in "type" d) as [e|[|]]; [discriminate| |].
    { apply type_attribute_of_inv in H as (? & tp & _ & Ht & _).
      apply py_getitem_dict in Ht as (kvs & -> & _). now exists kvs. }
    destruct (py_in "$ref" d) as [e|[|]]; [discriminate| |].
    { apply ref_attribute_inv in H as (? & ? & ? & ? & Hr & _).
      apply py_getitem_dict in Hr as (kvs & -> & _). now exists kvs. }
    destruct (py_in "oneOf" d) as [e|[|]]; [discriminate| |discriminate].
    apply oneof_attribute_of_inv in H as (? & ? & Ho & _).
    apply py_getitem_dict in Ho as (kvs & -> & _). now exists kvs. }
  destruct Hd as (kvs & ->). exists kvs. split; [reflexivity|].
  unfold mbind, lift, bind, ret in H. cbn [py_in ret] in H.
  destruct (has_key "type" kvs); [now left|].
  destruct (has_key "$ref" kvs); [right; now left|].
  destruct (has_key "oneOf" kvs); [right; now right|discriminate].
Qed.

Lemma flat_map_map (A B C : Type) (g : A -> list B) (h : B -> C) (l : list A) :
  flat_map (fun x => map h (g x)) l = map h (flat_map g l).
Proof.
  induction l as [|x l IH]; simpl; [reflexivity|]. now rewrite map_app, IH.
Qed.

(** What a loop appends is what its steps append, one after the other. *)
Lemma for_each_appends (A B : Type) (f : A -> M B) (g : A -> list string)
      (l : list A) :
  Forall (fun x => framed (f x)
                   /\ forall y new, f x [] = inr (y, new) -> new = g x) l ->
  forall imports ys imports',
    for_each f l imports = inr (ys, imports') ->
    imports' = (imports ++ flat_map g l)%list.
Proof.
  induction 1 as [|x l [Hx Hg] Hl IH]; intros imports ys imports'; cbn [for_each].
  - unfold mret, ret. intros [= _ <-]. simpl. now rewrite app_nil_r.
  - unfold mbind at 1. rewrite (Hx imports).
    destruct (f x []) as [e|[y n1]] eqn:E; [discriminate|].
    unfold mbind at 1.
    destruct (for_each f l (imports ++ n1)%list) as [e|[ys' st2]] eqn:E2;
      [discriminate|].
    unfold mret, ret. intros [= _ <-].
    rewrite (IH _ _ _ E2), (Hg _ _ eq_refl). simpl. now rewrite app_assoc.
Qed.

Lemma for_each_str_attribute (l : list string) imports ys imports' :
  for_each str_attribute l imports = inr (ys, imports') -> imports' = imports.
Proof.
  destruct l as [|s l]; cbn [for_each].
  - unfold mret, ret. now intros [= _ <-].
  - unfold mbind at 1, str_attribute.
    destruct (contains "type" s || contains "$ref" s || contains "oneOf" s)%bool;
      discriminate.
Qed.

(** The resolver appends one import line per Reference it meets. *)
Lemma resolver_appends_references (schema : json) :
  forall d,
    (forall t new, any_attribute schema d [] = inr (t, new) ->
                   new = map import_line (references d))
    /\ (forall ts new, resolve_each (any_attribute schema) d [] = inr (ts, new) ->
                       new = map import_line (references_each d)).
Proof.
  induction d as [ | b | z | r | s | l IHl | kvs IHkvs ] using json_induction;
    (split; [intros t new H; apply any_attribute_inv in H as (kvs0 & Hd & H);
             try discriminate
            |intros ts new H; cbn [resolve_each references_each] in *;
             try (discriminate H)]).
  - now apply for_each_str_attribute in H.
  - rewrite <- flat_map_map.
    apply (@for_each_appends _ _ (any_attribute schema)
             (fun x => map import_line (references x)) l) in H;
      [exact H|].
    eapply Forall_impl; [|exact IHl]. intros x [Hx _].
    split; [apply framed_any_attribute | exact Hx].
  - injection Hd as <-. rewrite Forall_forall in IHkvs.
    cbn [references].
    destruct H as [(Ht & H) | [(Ht & Hr & H) | (Ht & Hr & Ho & H)]]; rewrite Ht.
    + apply type_attribute_of_inv in H as (kwds & tp & _ & Htp & H).
      apply py_getitem_dict in Htp as (? & [= <-] & ->).
      destruct H as [(-> & v & typename & Hv & H & _) | (-> & ->)]; [|reflexivity].
      apply py_getitem_dict in Hv as (? & [= <-] & Hv).
      rewrite lookup_with_spec, Hv. cbn [option_map].
      apply (IHkvs ("items", v) (lookup_In _ _ Hv)) in H. exact H.
    + rewrite Hr.
      apply ref_attribute_inv in H as (ref & a & b & name & Href & Hs & ->).
      apply py_getitem_dict in Href as (? & [= <-] & ->). now rewrite Hs.
    + rewrite Hr, Ho.
      apply oneof_attribute_of_inv in H as (v & types & Hv & H & _).
      apply py_getitem_dict in Hv as (? & [= <-] & Hv).
      rewrite lookup_with_spec, Hv. cbn [option_map].
      apply (IHkvs ("oneOf", v) (lookup_In _ _ Hv)) in H. exact H.
  - now apply for_each_str_attribute in H.
Qed.

Lemma flat_map_on_map (A B C : Type) (h : A -> B) (g : B -> list C) (l : list A) :
  flat_map g (map h l) = flat_map (fun x => g (h x)) l.
Proof.
  induction l as [|x l IH]; simpl; [reflexivity | now rewrite IH].
Qed.

Lemma attribute_lines_append (schema : json) (items : list (string * json))
      imports lines imports' :
  for_each (attribute_line schema) items imports = inr (lines, imports') ->
  imports' = (imports ++ map import_line (flat_map references (map snd items)))%list.
Proof.
  intros H.
  apply (@for_each_appends _ _ (attribute_line schema)
           (fun kv => map import_line (references (snd kv))) items) in H.
  - rewrite H, flat_map_on_map, <- flat_map_map. reflexivity.
  - apply Forall_forall. intros item _.
    split; [apply framed_attribute_line|].
    intros y new Hy. unfold attribute_line, mbind, mret, ret in Hy.
    destruct (any_attribute schema (snd item) []) as [e|[t n]] eqn:E; [discriminate|].
    injection Hy as _ <-. eapply resolver_appends_references; exact E.
Qed.

(** C1, as the code has it.  Each Reference met while the properties of an
    object definition are resolved, directly or inside an array or a union,
    appends one import line of its target to the import list, which is not
    deduplicated: the import list [class_definition] renders is the two
    fixed imports followed by one line per Reference met, in the order they
    are met, so that a target referenced several times is imported as many
    times. *)
Theorem imports_one_per_reference
  (name : string) (schema : json) (self : ObjectDefinition)
  (props : list (string * json)) (text : string) (self' : SchemaDefinition) :
  ObjectDefinition_new name schema = inr self ->
  od_prop_dict self = JObj props ->
  class_definition (ObjectDef self) = inr (text, self') ->
  imports_of self'
  = (["import traitlets as T"; "from ..baseobject import BaseObject"]
     ++ map import_line (flat_map references (map snd (sorted_items props))))%list
  /\ exists body,
      text = file_comment ++ nl ++ nl ++ join nl (imports_of self')
                          ++ nl ++ nl ++ nl ++ body ++ nl.
Proof.
  intros Hnew Hp H.
  assert (Hi : od_imports self
               = ["import traitlets as T"; "from ..baseobject import BaseObject"]).
  { unfold ObjectDefinition_new, bind, ret in Hnew.
    destruct (py_getitem schema "definitions") as [e|definitions]; [discriminate|].
    destruct (py_getitem definitions name) as [e|definition]; [discriminate|].
    destruct (py_getitem definition "properties"); [discriminate|].
    now injection Hnew as <-. }
  unfold class_definition in H.
  destruct (code (ObjectDef self)) as [e|[body s1]] eqn:Ec; [discriminate|].
  unfold bind, ret in H.
  assert (Ht : text = file_comment ++ nl ++ nl ++ join nl (imports_of s1)
                                   ++ nl ++ nl ++ nl ++ body ++ nl) by congruence.
  assert (Hs : self' = s1) by congruence.
  clear H. subst self'. split; [|now exists body].
  unfold code, ObjectDefinition_code in Ec. rewrite Hp in Ec.
  unfold py_items, bind, ret in Ec.
  destruct (for_each (attribute_line (od_schema self)) (sorted_items props)
                     (od_imports self)) as [e|[lines st1]] eqn:E; [discriminate|].
  apply attribute_lines_append in E.
  assert (Hs : s1 = ObjectDef (mkObjectDefinition
                                 (od_name self) (od_schema self) (od_definition self)
                                 (od_prop_dict self) st1)) by congruence.
  rewrite Hs. cbn [imports_of od_imports]. now rewrite E, Hi.
Qed.

(** ** The run does not depend on the order of the bindings *)

Lemma for_each_ext (A B : Type) (f f' : A -> M B) (l : list A) :
  Forall (fun x => forall imports, f x imports = f' x imports) l ->
  forall imports, for_each f l imports = for_each f' l imports.
Proof.
  induction 1 as [|x l Hx Hl IH]; intros imports; cbn [for_each]; [reflexivity|].
  unfold mbind at 1 3. rewrite Hx.
  destruct (f' x imports) as [e|[y st]]; [reflexivity|].
  unfold mbind. now rewrite IH.
Qed.

Lemma type_attribute_of_ext (f f' : json -> M string) (d : json) :
  (forall v, py_getitem d "items" = inr v ->
             forall imports, f v imports = f' v imports) ->
  forall imports, type_attribute_of f d imports = type_attribute_of f' d imports.
Proof.
  intros H imports.
  unfold type_attribute_of, mbind, lift, bind, ret.
  destruct (get_attr_kwds d) as [e|kwds]; [reflexivity|].
  destruct (py_getitem d "type") as [e|tp]; [reflexivity|].
  destruct (py_eq_str tp "array"); [|reflexivity].
  rewrite !py_getitem_with_spec. unfold bind, ret.
  destruct (py_getitem d "items") as [e|v]; [reflexivity|].
  now rewrite (H v eq_refl).
Qed.

Lemma oneof_attribute_of_ext (f f' : json -> M string) (d : json) :
  (forall v, py_getitem d "oneOf" = inr v ->
             forall imports, resolve_each f v imports = resolve_each f' v imports) ->
  forall imports, oneof_attribute_of f d imports = oneof_attribute_of f' d imports.
Proof.
  intros H imports.
  unfold oneof_attribute_of, mbind, lift, bind, ret.
  rewrite !py_getitem_with_spec. unfold bind, ret.
  destruct (py_getitem d "oneOf") as [e|v]; [reflexivity|].
  now rewrite (H v eq_refl).
Qed.

Section SameSchema.
Variables schema schema' : json.
Hypothesis Hsame : same_schema schema schema'.

Lemma same_definition_getitem (d d' : json) (k : string) :
  same_definition d d' -> k <> "properties" -> py_getitem d k = py_getitem d' k.
Proof.
  intros [-> | (kvs & kvs' & -> & -> & Hk & _)] Hne; [reflexivity|].
  simpl. now rewrite (Hk k Hne).
Qed.

Lemma same_definition_in (d d' : json) (k : string) :
  same_definition d d' -> k <> "properties" -> py_in k d = py_in k d'.
Proof.
  intros [-> | (kvs & kvs' & -> & -> & Hk & _)] Hne; [reflexivity|].
  simpl. unfold has_key. now rewrite (Hk k Hne).
Qed.

(** A definition looked up by name in the two schemas *)
Lemma same_schema_definition (name : string) :
  match (definitions <- py_getitem schema "definitions" ;;
         py_getitem definitions name),
        (definitions <- py_getitem schema' "definitions" ;;
         py_getitem definitions name) with
  | inl e, inl e' => e = e'
  | inr d, inr d' => same_definition d d'
  | _, _ => False
  end.
Proof.
  destruct Hsame as (defs & defs' & E & E' & _ & H).
  rewrite E, E'. cbn [bind py_getitem]. specialize (H name).
  destruct (lookup name defs), (lookup name defs'); simpl; auto; contradiction.
Qed.

Lemma same_schema_reftype (name : string) :
  (definitions <- py_getitem schema "definitions" ;;
   definition <- py_getitem definitions name ;;
   py_getitem definition "type")
  = (definitions <- py_getitem schema' "definitions" ;;
     definition <- py_getitem definitions name ;;
     py_getitem definition "type").
Proof.
  destruct Hsame as (defs & defs' & E & E' & _ & H).
  rewrite E, E'. cbn [bind py_getitem]. specialize (H name).
  destruct (lookup name defs) as [d|], (lookup name defs') as [d'|];
    try contradiction; [|reflexivity].
  cbn [bind ret]. apply same_definition_getitem; [exact H | discriminate].
Qed.

Lemma same_schema_ref_attribute (d : json) (imports : list string) :
  ref_attribute schema d imports = ref_attribute schema' d imports.
Proof.
  unfold ref_attribute, mbind, lift.
  destruct (kwds <- get_attr_kwds d ;; ret (kwds, imports)) as [e|[kwds st]];
    [reflexivity|].
  destruct (parts <- (ref <- py_getitem d "$ref" ;; py_split ref "/") ;;
            ret (parts, st)) as [e|[parts st1]]; [reflexivity|].
  destruct parts as [|a [|b [|name [|? ?]]]]; try reflexivity.
  destruct (append_import ("from ." ++ lower name ++ " import " ++ name) st1)
    as [e|[u st2]]; [reflexivity|].
  now rewrite (same_schema_reftype name).
Qed.

Lemma same_schema_resolver :
  forall d imports,
    any_attribute schema d imports = any_attribute schema' d imports
    /\ resolve_each (any_attribute schema) d imports
       = resolve_each (any_attribute schema') d imports.
Proof.
  assert (Hany : forall d,
             (forall kvs v, d = JObj kvs -> In v (map snd kvs) ->
                forall imports,
                  any_attribute schema v imports = any_attribute schema' v imports
                  /\ resolve_each (any_attribute schema) v imports
                     = resolve_each (any_attribute schema') v imports) ->
             forall imports,
               any_attribute schema d imports = any_attribute schema' d imports).
  { intros d H imports. rewrite !any_attribute_unfold.
    unfold mbind at 1 4, lift.
    destruct (has_type <- py_in "type" d ;; ret (has_type, imports))
      as [e|[[|] st]]; [reflexivity| |].
    { apply type_attribute_of_ext. intros v Hv st'.
      apply py_getitem_dict in Hv as (kvs & -> & Hv).
      apply (H kvs v eq_refl). apply in_map_iff. exists ("items", v).
      split; [reflexivity | now apply lookup_In]. }
    unfold mbind at 1 3.
    destruct (has_ref <- py_in "$ref" d ;; ret (has_ref, st))
      as [e|[[|] st1]]; [reflexivity| |].
    { apply same_schema_ref_attribute. }
    unfold mbind at 1 2.
    destruct (has_oneof <- py_in "oneOf" d ;; ret (has_oneof, st1))
      as [e|[[|] st2]]; [reflexivity| |reflexivity].
    apply oneof_attribute_of_ext. intros v Hv st'.
    apply py_getitem_dict in Hv as (kvs & -> & Hv).
    apply (H kvs v eq_refl). apply in_map_iff. exists ("oneOf", v).
    split; [reflexivity | now apply lookup_In]. }
  induction d as [ | b | z | r | s | l IHl | kvs IHkvs ] using json_induction;
    intros imports;
    (split; [apply Hany; try discriminate | try reflexivity]).
  - cbn [resolve_each]. apply for_each_ext.
    eapply Forall_impl; [|exact IHl]. intros v H st. apply H.
  - intros kvs' v [= <-] Hin st. apply in_map_iff in Hin as (kv & <- & Hin).
    rewrite Forall_forall in IHkvs. now apply IHkvs.
Qed.

Lemma same_schema_attribute_lines (items : list (string * json)) imports :
  for_each (attribute_line schema) items imports
  = for_each (attribute_line schema') items imports.
Proof.
  apply for_each_ext, Forall_forall. intros item _ st.
  unfold attribute_line, mbind.
  now rewrite (proj1 (same_schema_resolver (snd item) st)).
Qed.
End SameSchema.

Section SameRun.
Variables schema schema' : json.
Hypothesis Hsame : same_schema schema schema'.

Lemma generated_object (name : string) (d d' p p' : json) (imports : list string) :
  (p = p' \/ exists props props',
      p = JObj props /\ p' = JObj props' /\ wf_dict props /\ Permutation props props') ->
  generated (ObjectDef (mkObjectDefinition name schema d p imports))
  = generated (ObjectDef (mkObjectDefinition name schema' d' p' imports)).
Proof.
  intros Hp.
  assert (Hitems : (items <- py_items p ;; ret (sorted_items items))
                   = (items <- py_items p' ;; ret (sorted_items items))).
  { destruct Hp as [-> | (props & props' & -> & -> & W & P)]; [reflexivity|].
    cbn [py_items bind ret]. now rewrite (sorted_items_permutation W P). }
  unfold generated, class_definition, code, ObjectDefinition_code.
  cbn [od_prop_dict od_schema od_name od_imports od_definition].
  unfold bind, ret in *.
  destruct (py_items p) as [e|items], (py_items p') as [e'|items'];
    try congruence.
  injection Hitems as ->.
  rewrite (same_schema_attribute_lines Hsame).
  destruct (for_each (attribute_line schema') (sorted_items items') imports)
    as [e|[lines st]]; reflexivity.
Qed.

Lemma generated_string (name : string) (d d' : json) (imports : list string) :
  same_definition d d' ->
  generated (StringDef (mkStringDefinition name schema d imports))
  = generated (StringDef (mkStringDefinition name schema' d' imports)).
Proof.
  intros Hd.
  unfold generated, class_definition, code, StringDefinition_code.
  cbn [sd_definition sd_name sd_imports].
  rewrite (same_definition_in Hd (k := "enum")) by discriminate.
  rewrite (same_definition_getitem Hd (k := "enum")) by discriminate.
  unfold bind, ret.
  destruct (py_in "enum" d') as [e|[|]]; try reflexivity.
  destruct (py_getitem d' "enum"); reflexivity.
Qed.

Lemma same_definition_properties (d d' : json) :
  same_definition d d' ->
  match py_getitem d "properties", py_getitem d' "properties" with
  | inl e, inl e' => e = e'
  | inr p, inr p' =>
      p = p' \/ exists props props',
        p = JObj props /\ p' = JObj props' /\ wf_dict props /\ Permutation props props'
  | _, _ => False
  end.
Proof.
  intros [-> | (kvs & kvs' & -> & -> & _ & Hp)].
  - destruct (py_getitem d' "properties"); auto.
  - cbn [py_getitem].
    destruct Hp as [-> | (props & props' & -> & -> & W & P)].
    + destruct (lookup "properties" kvs'); simpl; auto.
    + simpl. right. now exists props, props'.
Qed.

Lemma same_schema_init (name : string) :
  same_generated (init name schema) (init name schema').
Proof.
  pose proof Hsame as (defs & defs' & E & E' & _ & H).
  unfold init, ObjectDefinition_new, StringDefinition_new.
  rewrite E, E'. cbn [bind py_getitem]. specialize (H name).
  destruct (lookup name defs) as [d|], (lookup name defs') as [d'|];
    try contradiction; [|reflexivity].
  cbn [bind ret].
  rewrite (same_definition_getitem H (k := "type")) by discriminate.
  destruct (py_getitem d' "type") as [e|typ]; [reflexivity|].
  cbn [bind].
  destruct (py_eq_str typ "object").
  - pose proof (same_definition_properties H) as Hp.
    destruct (py_getitem d "properties") as [e|p],
             (py_getitem d' "properties") as [e'|p']; try contradiction.
    + exact Hp.
    + cbn [bind ret same_generated]. now apply generated_object.
  - destruct (py_eq_str typ "string"); [|reflexivity].
    cbn [bind ret same_generated]. now apply generated_string.
Qed.

Lemma write_modules_same (defs defs' : list (string * result SchemaDefinition)) :
  Forall2 (fun p p' => fst p = fst p' /\ same_generated (snd p) (snd p')) defs defs' ->
  forall fs, write_modules defs fs = write_modules defs' fs.
Proof.
  induction 1 as [|[name r] [name' r'] defs defs' [Hn Hr] F IH]; intros fs;
    [reflexivity|].
  cbn [fst snd] in Hn, Hr. subst name'. cbn [write_modules].
  destruct r as [e|obj], r' as [e'|obj']; cbn [same_generated] in Hr;
    try contradiction; [now subst|].
  unfold generated, bind, ret in Hr.
  destruct (class_definition obj) as [e|[text o1]],
           (class_definition obj') as [e'|[text' o1']]; try discriminate.
  - now injection Hr as ->.
  - assert (Ht : text = text').
    { apply (f_equal (fun r : result (string * string) =>
                        match r with inr (t, _) => t | inl _ => text end)) in Hr.
      exact Hr. }
    assert (Hs : test_script o1 = test_script o1').
    { apply (f_equal (fun r : result (string * string) =>
                        match r with inr (_, t) => t | inl _ => EmptyString end)) in Hr.
      exact Hr. }
    rewrite Ht, Hs. apply IH.
Qed.

Lemma same_schema_run (fs : files) :
  write_python_wrappers schema fs = write_python_wrappers schema' fs.
Proof.
  unfold write_python_wrappers, definitions.
  pose proof Hsame as (defs & defs' & E & E' & P & _).
  rewrite E, E'. cbn [bind sorted_names ret].
  rewrite (sorted_permutation P).
  apply write_modules_same.
  induction (sorted (map fst defs')) as [|name names IH]; constructor;
    [|exact IH].
  split; [reflexivity | apply same_schema_init].
Qed.
End SameRun.

Lemma definitions_sorted (schema : json) defs :
  definitions schema = inr defs ->
  StronglySorted str_le (map fst defs)
  /\ Forall (fun p => snd p = init (fst p) schema) defs.
Proof.
  unfold definitions, bind, ret.
  destruct (py_getitem schema "definitions") as [e|d]; [discriminate|].
  assert (Hs : forall names, sorted_names d = inr names -> StronglySorted str_le names).
  { destruct d; cbn [sorted_names]; try discriminate; intros names.
    - intros [= <-]. apply sorted_strongly.
    - destruct (all_strs items); [|discriminate].
      intros [= <-]. apply sorted_strongly.
    - intros [= <-]. apply sorted_strongly. }
  destruct (sorted_names d) as [e|names]; [discriminate|].
  intros [= <-]. rewrite map_map. cbn [fst]. rewrite map_id.
  split; [now apply Hs|].
  apply Forall_forall. intros p Hp. apply in_map_iff in Hp as (name & <- & _).
  reflexivity.
Qed.

(** C7.  The run is a function of the schema document alone: the
    definitions are produced in ascending order of their names, each from a
    definition object made for it by [init], and two readings of the same
    document, which may give the definitions and the properties of a
    definition in different orders, lead to the same files with the same
    text, and to the same exception if there is one. *)
Theorem generation_deterministic (schema : json) :
  (forall defs,
      definitions schema = inr defs ->
      StronglySorted str_le (map fst defs)
      /\ Forall (fun p => snd p = init (fst p) schema) defs)
  /\ (forall schema' fs,
         same_schema schema schema' ->
         write_python_wrappers schema' fs = write_python_wrappers schema fs).
Proof.
  split.
  - intros defs. apply definitions_sorted.
  - intros schema' fs H. symmetry. now apply same_schema_run.
Qed.

(** ** The sample schema *)

(** C2 (the code departs from the claim).  A 'oneOf' descriptor is rendered
    as [T.Union] of its alternatives and nothing else: [oneof_attribute]
    does not derive the common keywords, so the union has no [allow_none],
    no [default_value] and no [help] of its own, and with no alternative
    the text has no keyword at all; the 'type' branch renders the same
    description with the keywords. *)
Theorem union_has_no_keywords :
  any_attribute sample_schema filled_descriptor [] = inr (union_text, [])
  /\ any_attribute sample_schema (JObj [("oneOf", JArr [])]) []
     = inr ("T.Union([])", [])
  /\ any_attribute sample_schema
       (JObj [("description", JStr "Whether the mark is filled.");
              ("type", JStr "boolean")]) []
     = inr ("T.Bool(allow_none=True, default_value=None, help="
              ++ triple_quote ++ "Whether the mark is filled." ++ triple_quote ++ ")",
            []).
Proof.
  repeat split; vm_compute; reflexivity.
Qed.

(** C6 (the code departs from the claim).  The help keyword is derived by
    [get_attr_kwds], which [type_attribute] and [ref_attribute] call and
    [oneof_attribute] does not.  The 'oneOf' descriptor of the sample has a
    description whose summary can be derived (cut at the first "(e.g.",
    which comes before the first full stop), yet the attribute it is
    rendered as has no help keyword at all; the same description in a
    'type' descriptor and in a '$ref' descriptor is rendered with its
    summary as the help keyword. *)
Theorem union_drops_description :
  let description := "Either a number (e.g. 0.5) or a flag.  Default is true." in
  let alternatives := JArr [number_descriptor; boolean_descriptor] in
  let help := triple_quote ++ "Either a number." ++ triple_quote in
  format_help_string (JStr description) true = inr help
  /\ (exists kwds,
         get_attr_kwds (JObj [("description", JStr description);
                              ("oneOf", alternatives)]) = inr kwds
         /\ lookup "help" kwds = Some (JStr help))
  /\ any_attribute sample_schema
       (JObj [("description", JStr description); ("oneOf", alternatives)]) []
     = inr ("T.Union([T.Bool(allow_none=True, default_value=None), "
              ++ "T.CFloat(allow_none=True, default_value=None)])", [])
  /\ contains "help"
       ("T.Union([T.Bool(allow_none=True, default_value=None), "
          ++ "T.CFloat(allow_none=True, default_value=None)])") = false
  /\ any_attribute sample_schema
       (JObj [("description", JStr description); ("type", JStr "number")]) []
     = inr ("T.CFloat(allow_none=True, default_value=None, help=" ++ help ++ ")", [])
  /\ any_attribute sample_schema
       (JObj [("description", JStr description);
              ("$ref", JStr "#/definitions/Color")]) []
     = inr ("Color(allow_none=True, default_value=None, help=" ++ help ++ ")",
            ["from .color import Color"]).
Proof.
  cbv zeta. split; [reflexivity|]. split.
  - eexists. split; [vm_compute; reflexivity | reflexivity].
  - repeat split; vm_compute; reflexivity.
Qed.

(** C1 as stated fails: the object of the sample schema refers to the same
    target directly and inside an array, and its import list has the import
    of that target twice. *)
Lemma imports_not_deduplicated :
  exists text self',
    init "Mark" sample_schema = inr (ObjectDef mark_self)
    /\ class_definition (ObjectDef mark_self) = inr (text, self')
    /\ imports_of self'
       = ["import traitlets as T"; "from ..baseobject import BaseObject";
          "from .color import Color"; "from .color import Color"]
    /\ ~ NoDup (imports_of self').
Proof.
  destruct (class_definition (ObjectDef mark_self)) as [e|[text self']] eqn:E;
    [vm_compute in E; discriminate|].
  exists text, self'.
  assert (Hi : imports_of self'
               = ["import traitlets as T"; "from ..baseobject import BaseObject";
                  "from .color import Color"; "from .color import Color"]).
  { vm_compute in E. injection E as _ <-. reflexivity. }
  repeat split; [exact Hi|].
  rewrite Hi. intros ND.
  inversion ND as [|? ? _ ND1]; subst. inversion ND1 as [|? ? _ ND2]; subst.
  inversion ND2 as [|? ? Hn _]; subst. apply Hn. now left.
Qed.

(** C8 as stated fails: a definition of type "object" without properties
    gives no Object definition. *)
Lemma init_object_without_properties :
  (definitions <- py_getitem bare_schema "definitions" ;;
   definition <- py_getitem definitions "Mark" ;;
   py_getitem definition "type") = inr (JStr "object")
  /\ init "Mark" bare_schema = inl (KeyError "properties").
Proof.
  split; reflexivity.
Qed.

Lemma mark_props_wf : wf_dict mark_props.
Proof.
  unfold wf_dict, mark_props. cbn [map fst].
  repeat constructor; cbn [In]; intuition discriminate.
Qed.

Lemma sample_schema_same : same_schema sample_schema sample_schema_reordered.
Proof.
  exists [("Mark", mark_def); ("Color", color_def)],
         [("Color", color_def);
          ("Mark", JObj [("properties", JObj (rev mark_props));
                         ("type", JStr "object")])].
  split; [reflexivity|]. split; [reflexivity|]. split; [apply perm_swap|].
  intros name. cbn [lookup].
  destruct (String.eqb_spec "Mark" name) as [<-|Hm].
  - cbn [String.eqb Ascii.eqb Bool.eqb]. right.
    exists [("type", JStr "object"); ("properties", JObj mark_props)],
           [("properties", JObj (rev mark_props)); ("type", JStr "object")].
    split; [reflexivity|]. split; [reflexivity|]. split.
    + intros k Hk. cbn [lookup].
      destruct (String.eqb_spec "properties" k); [congruence|].
      destruct (String.eqb "type" k); reflexivity.
    + right. exists mark_props, (rev mark_props).
      repeat split; [apply mark_props_wf | apply Permutation_rev].
  - destruct (String.eqb_spec "Color" name); [now left | exact I].
Qed.

Lemma imports_one_per_reference_witness :
  exists text self',
    ObjectDefinition_new "Mark" sample_schema = inr mark_self
    /\ od_prop_dict mark_self = JObj mark_props
    /\ class_definition (ObjectDef mark_self) = inr (text, self')
    /\ imports_of self'
       = (["import traitlets as T"; "from ..baseobject import BaseObject"]
          ++ map import_line
                 (flat_map references (map snd (sorted_items mark_props))))%list.
Proof.
  destruct (class_definition (ObjectDef mark_self)) as [e|[text self']] eqn:E;
    [vm_compute in E; discriminate|].
  exists text, self'.
  split; [reflexivity|]. split; [reflexivity|]. split; [reflexivity|].
  exact (proj1 (@imports_one_per_reference
                  "Mark" sample_schema mark_self mark_props text self'
                  eq_refl eq_refl E)).
Defined.

Lemma oneof_sorted_whatever_the_order_witness :
  py_getitem filled_descriptor "oneOf"
  = inr (JArr [number_descriptor; boolean_descriptor])
  /\ oneof_attribute sample_schema filled_descriptor [] = inr (union_text, [])
  /\ exists imports2',
      oneof_attribute sample_schema
                      (JObj [("oneOf", JArr [boolean_descriptor; number_descriptor])])
                      ["import traitlets as T"]
      = inr (union_text, imports2').
Proof.
  assert (H : oneof_attribute sample_schema filled_descriptor []
              = inr (union_text, [])) by (vm_compute; reflexivity).
  split; [reflexivity|]. split; [exact H|].
  apply (proj2 (@oneof_sorted_whatever_the_order
                  sample_schema filled_descriptor
                  [number_descriptor; boolean_descriptor] [] union_text []
                  eq_refl H)
               (JObj [("oneOf", JArr [boolean_descriptor; number_descriptor])])
               [boolean_descriptor; number_descriptor]
               ["import traitlets as T"] eq_refl).
  apply perm_swap.
Defined.

Lemma object_code_sorted_properties_witness :
  exists self' self2',
    od_prop_dict mark_self = JObj mark_props
    /\ ascii_json (JObj mark_props) = true
    /\ wf_dict mark_props
    /\ Permutation mark_props (rev mark_props)
    /\ ObjectDefinition_code mark_self
       = inr ("class Mark(BaseObject):" ++ nl
              ++ "    color = Color(allow_none=True, default_value=None)" ++ nl
              ++ "    filled = T.Union([T.Bool(allow_none=True, default_value=None), "
              ++ "T.CFloat(allow_none=True, default_value=None)])" ++ nl
              ++ "    palette = T.List(Color(allow_none=True, default_value=None), "
              ++ "allow_none=True, default_value=None)" ++ nl
              ++ "    size = T.CFloat(allow_none=True, default_value=None, min=0, help="
              ++ triple_quote ++ "Size of marks." ++ triple_quote ++ ")" ++ nl,
              self')
    /\ ObjectDefinition_code
         (mkObjectDefinition "Mark" sample_schema mark_def (JObj (rev mark_props)) [])
       = inr ("class Mark(BaseObject):" ++ nl
              ++ "    color = Color(allow_none=True, default_value=None)" ++ nl
              ++ "    filled = T.Union([T.Bool(allow_none=True, default_value=None), "
              ++ "T.CFloat(allow_none=True, default_value=None)])" ++ nl
              ++ "    palette = T.List(Color(allow_none=True, default_value=None), "
              ++ "allow_none=True, default_value=None)" ++ nl
              ++ "    size = T.CFloat(allow_none=True, default_value=None, min=0, help="
              ++ triple_quote ++ "Size of marks." ++ triple_quote ++ ")" ++ nl,
              self2').
Proof.
  eexists.
  assert (E : ObjectDefinition_code mark_self
              = inr ("class Mark(BaseObject):" ++ nl
                     ++ "    color = Color(allow_none=True, default_value=None)" ++ nl
                     ++ "    filled = T.Union([T.Bool(allow_none=True, default_value=None), "
                     ++ "T.CFloat(allow_none=True, default_value=None)])" ++ nl
                     ++ "    palette = T.List(Color(allow_none=True, default_value=None), "
                     ++ "allow_none=True, default_value=None)" ++ nl
                     ++ "    size = T.CFloat(allow_none=True, default_value=None, min=0, help="
                     ++ triple_quote ++ "Size of marks." ++ triple_quote ++ ")" ++ nl,
                     _)) by (vm_compute; reflexivity).
  destruct (proj2 (@object_code_sorted_properties mark_self _ mark_props _
                     eq_refl eq_refl E)
                  (rev mark_props) mark_def [] mark_props_wf
                  (Permutation_rev mark_props)) as (self2' & E2).
  exists self2'.
  split; [reflexivity|]. split; [reflexivity|]. split; [exact mark_props_wf|].
  split; [apply Permutation_rev|]. split; [exact E | exact E2].
Defined.

Lemma string_definition_code_witness :
  py_getitem (sd_definition color_self) "enum"
  = inr (JArr (map JStr ["red"; "green"; "blue"]))
  /\ forallb plain ["red"; "green"; "blue"] = true
  /\ StringDefinition_code color_self
     = inr ("class Color(T.Enum):" ++ nl
            ++ "    def __init__(self, default_value=T.Undefined, **metadata):" ++ nl
            ++ "        super(Color, self).__init__(['red', 'green', 'blue']," ++ nl
            ++ "                                    default_value=default_value," ++ nl
            ++ "                                    **metadata)").
Proof.
  split; [reflexivity|]. split; [reflexivity|].
  exact (proj1 (string_definition_code color_self)
               ["red"; "green"; "blue"] eq_refl eq_refl).
Defined.

Lemma generation_deterministic_witness :
  same_schema sample_schema sample_schema_reordered
  /\ write_python_wrappers sample_schema_reordered []
     = write_python_wrappers sample_schema [].
Proof.
  split; [exact sample_schema_same|].
  exact (proj2 (generation_deterministic sample_schema)
               sample_schema_reordered [] sample_schema_same).
Defined.

Lemma init_classifies_witness :
  py_getitem sample_schema "definitions"
  = inr (JObj [("Mark", mark_def); ("Color", color_def)])
  /\ py_getitem (JObj [("Mark", mark_def); ("Color", color_def)]) "Mark" = inr mark_def
  /\ py_getitem mark_def "type" = inr (JStr "object")
  /\ init "Mark" sample_schema = inr (ObjectDef mark_self).
Proof.
  split; [reflexivity|]. split; [reflexivity|]. split; [reflexivity|].
  exact (proj2 (proj2 (@init_classifies
                         "Mark" sample_schema
                         (JObj [("Mark", mark_def); ("Color", color_def)])
                         mark_def (JStr "object") eq_refl eq_refl eq_refl))
               eq_refl).
Defined.

Lemma any_attribute_priority_witness :
  py_in "type" mixed_descriptor = inr true
  /\ any_attribute sample_schema mixed_descriptor
     = type_attribute sample_schema mixed_descriptor.
Proof.
  split; [reflexivity|].
  exact (proj1 (any_attribute_priority sample_schema mixed_descriptor) eq_refl).
Defined.

(** Further outcomes on the sample schema: a descriptor with the three
    shape keys is resolved as its 'type' says, and a Reference fails on a
    '$ref' with two segments, on a target that is not defined and on a target
    whose type is neither "object" nor "string". *)
Example mixed_descriptor_resolved :
  any_attribute sample_schema mixed_descriptor []
  = inr ("T.CFloat(allow_none=True, default_value=None)", []).
Proof.
  vm_compute. reflexivity.
Qed.

Example ref_with_two_segments :
  ref_attribute sample_schema (JObj [("$ref", JStr "definitions/Color")]) []
  = inl ValueError.
Proof.
  vm_compute. reflexivity.
Qed.

Example ref_to_missing_definition :
  ref_attribute sample_schema (JObj [("$ref", JStr "#/definitions/Shape")]) []
  = inl (KeyError "Shape").
Proof.
  vm_compute. reflexivity.
Qed.

Example ref_to_other_kind :
  ref_attribute (JObj [("definitions", JObj [("Angle", JObj [("type", JStr "number")])])])
                (JObj [("$ref", JStr "#/definitions/Angle")]) []
  = inl (NotImplementedError "type = 'number'").
Proof.
  vm_compute. reflexivity.
Qed.

Example init_of_other_kind :
  init "Angle" (JObj [("definitions", JObj [("Angle", JObj [("type", JStr "number")])])])
  = inl (NotImplementedError "Definition type='number'").
Proof.
  vm_compute. reflexivity.
Qed.

(** * Further properties of the generator *)

(** ** Keywords *)

Lemma sorted_items_perm (A : Type) (kvs : list (string * A)) :
  Permutation kvs (sorted_items kvs).
Proof.
  apply sorted_by_perm.
Qed.

(** X3.  The printed keywords do not depend on the order in which the
    keyword dict was filled. *)
Theorem kwds_to_str_any_order (kwds kwds' : kwds_t) :
  wf_dict kwds -> Permutation kwds kwds' -> kwds_to_str kwds = kwds_to_str kwds'.
Proof.
  intros W P. unfold kwds_to_str.
  now rewrite (sorted_items_permutation W P), (lookup_permutation "help" W P).
Qed.

Lemma kwds_to_str_any_order_witness :
  wf_dict [("min", JInt 0); ("allow_none", JStr "True")]
  /\ Permutation [("min", JInt 0); ("allow_none", JStr "True")]
                 [("allow_none", JStr "True"); ("min", JInt 0)]
  /\ kwds_to_str [("min", JInt 0); ("allow_none", JStr "True")]
     = kwds_to_str [("allow_none", JStr "True"); ("min", JInt 0)].
Proof.
  assert (W : wf_dict [("min", JInt 0); ("allow_none", JStr "True")]).
  { unfold wf_dict. cbn [map fst]. repeat constructor; cbn [In]; intuition discriminate. }
  split; [exact W|]. split; [apply perm_swap|].
  exact (@kwds_to_str_any_order _ _ W (perm_swap _ _ _)).
Defined.

(** X1.  The keywords derived from a descriptor are printed as
    [allow_none=True, default_value=None], then [max] and [min] with the
    values of 'maximum' and 'minimum' when the descriptor has them, then
    [help] with the help text of the description when it has one. *)
Theorem attr_kwds_rendered (kvs : list (string * json)) (kwds : kwds_t) :
  get_attr_kwds (JObj kvs) = inr kwds ->
  kwds_to_str kwds
  = rendered_kwds (lookup "maximum" kvs) (lookup "minimum" kvs)
                  (description_help (lookup "description" kvs)).
Proof.
  unfold get_attr_kwds, rendered_kwds, description_help, opt_kwd, has_key.
  cbn [py_in py_getitem ret]. unfold has_key.
  destruct (lookup "description" kvs) as [[ | | | | s | | ]|];
    cbn [bind ret raise format_help_string]; try discriminate;
    destruct (lookup "minimum" kvs) as [mn|], (lookup "maximum" kvs) as [mx|];
    cbn [bind ret option_map]; intros [= <-];
    unfold kwds_to_str, help_text; cbn;
    rewrite ?append_empty_r, ?append_assoc; reflexivity.
Qed.

Lemma attr_kwds_rendered_witness :
  exists kwds,
    get_attr_kwds size_descriptor = inr kwds
    /\ kwds_to_str kwds
       = "allow_none=True, default_value=None, min=0, help="
         ++ triple_quote ++ "Size of marks." ++ triple_quote.
Proof.
  destruct (get_attr_kwds size_descriptor) as [e|kwds] eqn:E;
    [vm_compute in E; discriminate|].
  exists kwds. split; [reflexivity|].
  exact (@attr_kwds_rendered
           [("description", JStr "Size of marks (e.g. 30).  Default is 10.");
            ("type", JStr "number"); ("minimum", JInt 0)] kwds E).
Defined.

(** X2.  Deriving the keywords of a descriptor that is a dict fails in one
    case only: the descriptor has a description that is not a str, and the
    error is then AttributeError. *)
Theorem get_attr_kwds_fails_iff (kvs : list (string * json)) (e : exn) :
  get_attr_kwds (JObj kvs) = inl e
  <->
  e = AttributeError
  /\ exists v, lookup "description" kvs = Some v /\ forall s, v <> JStr s.
Proof.
  unfold get_attr_kwds. cbn [py_in py_getitem ret]. unfold has_key.
  destruct (lookup "description" kvs) as [v|]; cbn [bind ret raise].
  - destruct v as [ | b | z | r | s | l | kvs' ];
      cbn [bind ret raise format_help_string];
      try (split; [intros [= <-]; split; [reflexivity|]; eexists; split;
                   [reflexivity | discriminate]
                  |intros [-> _]; reflexivity]).
    destruct (lookup "minimum" kvs), (lookup "maximum" kvs); cbn [bind ret];
      (split; [discriminate | intros [_ (v & [= <-] & H)]; now destruct (H s)]).
  - destruct (lookup "minimum" kvs), (lookup "maximum" kvs); cbn [bind ret];
      (split; [discriminate | intros [_ (v & H & _)]; discriminate]).
Qed.

(** ** The help text *)

Lemma contains_char_app (c : ascii) (a b : string) :
  contains (String c EmptyString) (a ++ b)
  = (contains (String c EmptyString) a || contains (String c EmptyString) b)%bool.
Proof.
  induction a as [|x a IH].
  - reflexivity.
  - cbn [append]. rewrite !contains_char_cons.
    destruct (ascii_dec c x); [reflexivity | exact IH].
Qed.

Lemma take_first_index_char (c : ascii) (s : string) :
  contains (String c EmptyString) (take (first_index (String c EmptyString) s) s)
  = false.
Proof.
  induction s as [|a s IH]; [reflexivity|].
  rewrite first_index_char_cons.
  destruct (ascii_dec c a) as [|Hne]; [reflexivity|].
  cbn [take]. rewrite contains_char_cons.
  destruct (ascii_dec c a); [contradiction | exact IH].
Qed.

Lemma take_drop (n : nat) (s : string) : take n s ++ drop n s = s.
Proof.
  revert n. induction s as [|c s IH]; intros [|n]; simpl; try reflexivity.
  now rewrite IH.
Qed.

Lemma rstrip_prefix (s : string) : exists rest, s = rstrip s ++ rest.
Proof.
  induction s as [|c s (rest & IH)].
  - now exists EmptyString.
  - cbn [rstrip]. destruct (rstrip s) as [|c' r] eqn:E.
    + destruct (is_space c).
      * now exists (String c s).
      * exists s. reflexivity.
    + exists rest. rewrite IH at 1. reflexivity.
Qed.

Lemma rstrip_idempotent (s : string) : rstrip (rstrip s) = rstrip s.
Proof.
  induction s as [|c s IH]; [reflexivity|].
  cbn [rstrip]. destruct (rstrip s) as [|c' r] eqn:E.
  - destruct (is_space c) eqn:Ec; [reflexivity|].
    cbn [rstrip]. now rewrite Ec.
  - cbn [rstrip] in *. rewrite IH. reflexivity.
Qed.

(** X4.  The help text of a description within ASCII is, between triple
    quotes and before a full stop, the description cut at the first full
    stop or at the first "(e.g.", whichever comes first, without the white
    space at its end: a beginning of the description that has no full stop
    in it and no white space at its end.  A description that is not a str
    raises AttributeError. *)
Theorem help_text_shape (description : json) (summarize : bool) :
  (forall s, description = JStr s ->
     is_ascii s = true ->
     exists body rest,
       format_help_string description true
       = inr (triple_quote ++ body ++ "." ++ triple_quote)
       /\ body = rstrip (take (Nat.min (first_index "." s) (first_index "(e.g." s)) s)
       /\ s = body ++ rest
       /\ contains "." body = false
       /\ rstrip body = body)
  /\ ((forall s, description <> JStr s) ->
      format_help_string description summarize = inl AttributeError).
Proof.
  split.
  - intros s -> _. destruct (rstrip_prefix (summary s)) as (r1 & H1).
    exists (rstrip (summary s)), (r1 ++ drop (Nat.min (first_index "." s)
                                                       (first_index "(e.g." s)) s).
    split; [reflexivity|]. split; [now rewrite summary_cut|]. repeat split.
    + rewrite <- append_assoc, <- H1, summary_cut. symmetry. apply take_drop.
    + assert (Hs : contains "." (summary s) = false).
      { unfold summary. rewrite (hd_split "." _). apply take_first_index_char. }
      rewrite H1, contains_char_app in Hs.
      now apply Bool.orb_false_iff in Hs as [Hs _].
    + apply rstrip_idempotent.
  - intros H. destruct description; try reflexivity. now destruct (H s).
Qed.

Lemma help_text_shape_witness :
  is_ascii "Size of marks (e.g. 30).  Default is 10." = true
  /\ format_help_string (JStr "Size of marks (e.g. 30).  Default is 10.") true
     = inr (triple_quote ++ "Size of marks" ++ "." ++ triple_quote)
  /\ "Size of marks (e.g. 30).  Default is 10."
     = "Size of marks" ++ " (e.g. 30).  Default is 10."
  /\ contains "." "Size of marks" = false
  /\ rstrip "Size of marks" = "Size of marks".
Proof.
  split; [reflexivity|].
  destruct (proj1 (help_text_shape
                     (JStr "Size of marks (e.g. 30).  Default is 10.") true)
                  "Size of marks (e.g. 30).  Default is 10." eq_refl eq_refl)
    as (body & rest & H1 & H2 & H3 & H4 & H5).
  assert (Hb : body = "Size of marks") by (rewrite H2; vm_compute; reflexivity).
  rewrite Hb in H1, H4, H5.
  split; [exact H1|]. split; [reflexivity|]. split; [exact H4 | exact H5].
Defined.

(** ** Typed descriptors *)

Lemma traitlet_of_array : traitlet_of "array" = None.
Proof.
  reflexivity.
Qed.

(** X5.  A 'type' descriptor is resolved exactly when its keywords can be
    derived and its type is a str that is either "array", with 'items' that
    resolve, or one of "boolean", "number", "string" and "object".  An array
    is rendered as [T.List] of its resolved items followed by the keywords
    and adds the imports of its items; a scalar is rendered as its traitlet
    class with the keywords and adds no import. *)
Theorem type_attribute_succeeds_iff
  (schema d : json) (imports : list string) (t : string) (imports' : list string) :
  type_attribute schema d imports = inr (t, imports')
  <->
  exists kwds tp,
    get_attr_kwds d = inr kwds
    /\ py_getitem d "type" = inr (JStr tp)
    /\ ((tp = "array"
         /\ exists v inner,
             py_getitem d "items" = inr v
             /\ any_attribute schema v imports = inr (inner, imports')
             /\ t = "T.List(" ++ inner ++ ", " ++ kwds_to_str kwds ++ ")")
        \/ (exists cls,
               traitlet_of tp = Some cls
               /\ imports' = imports
               /\ t = "T." ++ cls ++ "(" ++ kwds_to_str kwds ++ ")")).
Proof.
  unfold type_attribute, type_attribute_of, mbind, lift, mret, mraise, bind, ret, raise.
  rewrite py_getitem_with_spec. unfold bind, ret.
  split.
  - destruct (get_attr_kwds d) as [e|kwds]; [discriminate|].
    destruct (py_getitem d "type") as [e|tp]; [discriminate|].
    intros H.
    destruct tp as [ | | | | tp | | ]; cbn [py_eq_str] in H; try discriminate H.
    exists kwds, tp. split; [reflexivity|]. split; [reflexivity|].
    unfold traitlet_of.
    destruct (String.eqb_spec tp "array") as [Ea|Ea].
    { left. split; [exact Ea|].
      destruct (py_getitem d "items") as [e|v]; [discriminate|].
      destruct (any_attribute schema v imports) as [e|[inner st]] eqn:E;
        [discriminate|].
      injection H as <- <-. exists v, inner. repeat split; [exact E|].
      unfold instance_str. cbn [sorted sorted_by insert_sorted join String.concat].
      now rewrite !append_assoc. }
    right.
    destruct (String.eqb tp "boolean");
      [injection H as <- <-; now exists "Bool"|].
    destruct (String.eqb tp "number");
      [injection H as <- <-; now exists "CFloat"|].
    destruct (String.eqb tp "string");
      [injection H as <- <-; now exists "Unicode"|].
    destruct (String.eqb tp "object");
      [injection H as <- <-; now exists "Any"|discriminate].
  - intros (kwds & tp & -> & -> & H). cbn [py_eq_str].
    destruct H as [(-> & v & inner & -> & E & ->) | (cls & Hc & -> & ->)].
    + cbn [String.eqb Ascii.eqb Bool.eqb]. rewrite E.
      unfold instance_str. cbn [sorted sorted_by insert_sorted join String.concat].
      now rewrite !append_assoc.
    + unfold traitlet_of in Hc.
      destruct (String.eqb_spec tp "array") as [->|_]; [discriminate|].
      destruct (String.eqb tp "boolean"); [now injection Hc as <-|].
      destruct (String.eqb tp "number"); [now injection Hc as <-|].
      destruct (String.eqb tp "string"); [now injection Hc as <-|].
      destruct (String.eqb tp "object"); [now injection Hc as <-|discriminate].
Qed.

(** ** References *)

(** X6.  A resolved Reference whose descriptor is within ASCII adds the
    line [from .<name in lower case> import <name>] to the imports and
    nothing else, and is rendered from the name and the kind of the target:
    [T.Instance] of the name with the keywords for an object, a call of the
    name with the keywords for a string. *)
Theorem ref_attribute_rendered
  (schema d : json) (imports : list string) (t : string) (imports' : list string) :
  ascii_json d = true ->
  ref_attribute schema d imports = inr (t, imports') ->
  exists kwds ref a b name reftype,
    get_attr_kwds d = inr kwds
    /\ py_getitem d "$ref" = inr (JStr ref)
    /\ split "/" ref = [a; b; name]
    /\ (definitions <- py_getitem schema "definitions" ;;
        definition <- py_getitem definitions name ;;
        py_getitem definition "type") = inr (JStr reftype)
    /\ imports' = (imports ++ [("from ." ++ lower name ++ " import " ++ name)%string])%list
    /\ ((reftype = "object"
         /\ t = "T.Instance(" ++ name ++ ", " ++ kwds_to_str kwds ++ ")")
        \/ (reftype = "string" /\ t = name ++ "(" ++ kwds_to_str kwds ++ ")")).
Proof.
  intros _.
  unfold ref_attribute, mbind, lift, append_import, mret, mraise, bind, ret, raise.
  destruct (get_attr_kwds d) as [e|kwds]; [discriminate|].
  destruct (py_getitem d "$ref") as [e|ref]; [discriminate|].
  destruct ref as [ | | | | ref | | ]; try discriminate.
  cbn [py_split ret].
  destruct (split "/" ref) as [|a [|b [|name [|? ?]]]] eqn:Es; try discriminate.
  destruct (py_getitem schema "definitions") as [e|definitions] eqn:Ed;
    [discriminate|].
  destruct (py_getitem definitions name) as [e|definition] eqn:En; [discriminate|].
  destruct (py_getitem definition "type") as [e|reftype] eqn:Et; [discriminate|].
  intros H.
  destruct reftype as [ | | | | reftype | | ]; cbn [py_eq_str] in H;
    try discriminate H.
  exists kwds, ref, a, b, name, reftype.
  split; [reflexivity|]. split; [reflexivity|]. split; [exact Es|].
  split; [cbv beta iota; rewrite En; exact Et|].
  destruct (String.eqb_spec reftype "object") as [Eo|Eo].
  { injection H as <- <-. split; [reflexivity|]. left. split; [exact Eo|].
    unfold instance_str. cbn [sorted sorted_by insert_sorted join String.concat].
    now rewrite !append_assoc. }
  destruct (String.eqb_spec reftype "string") as [Es'|Es']; [|discriminate].
  injection H as <- <-. split; [reflexivity|]. right. split; [exact Es'|reflexivity].
Qed.

Lemma ref_attribute_rendered_witness :
  ascii_json (JObj [("$ref", JStr "#/definitions/Mark")]) = true
  /\ ref_attribute sample_schema (JObj [("$ref", JStr "#/definitions/Mark")]) []
     = inr ("T.Instance(Mark, allow_none=True, default_value=None)",
            ["from .mark import Mark"])
  /\ exists kwds ref a b name reftype,
      get_attr_kwds (JObj [("$ref", JStr "#/definitions/Mark")]) = inr kwds
      /\ py_getitem (JObj [("$ref", JStr "#/definitions/Mark")]) "$ref" = inr (JStr ref)
      /\ split "/" ref = [a; b; name]
      /\ (definitions <- py_getitem sample_schema "definitions" ;;
          definition <- py_getitem definitions name ;;
          py_getitem definition "type") = inr (JStr reftype)
      /\ ["from .mark import Mark"]
         = ([] ++ [("from ." ++ lower name ++ " import " ++ name)%string])%list.
Proof.
  assert (H : ref_attribute sample_schema (JObj [("$ref", JStr "#/definitions/Mark")]) []
              = inr ("T.Instance(Mark, allow_none=True, default_value=None)",
                     ["from .mark import Mark"])) by (vm_compute; reflexivity).
  split; [reflexivity|]. split; [exact H|].
  destruct (@ref_attribute_rendered sample_schema
              (JObj [("$ref", JStr "#/definitions/Mark")]) [] _ _ eq_refl H)
    as (kwds & ref & a & b & name & reftype & H1 & H2 & H3 & H4 & H5 & _).
  exists kwds, ref, a, b, name, reftype. repeat split; assumption.
Defined.

(** ** Unions *)

(** X7.  A 'oneOf' descriptor is resolved exactly when its 'oneOf' value is
    a list whose elements all resolve, or an empty dict, or an empty str.  It
    is rendered as [T.Union] of the sorted texts of the alternatives and adds
    the imports of the References met in the alternatives, in the order of
    the list. *)
Theorem oneof_attribute_succeeds_iff
  (schema d : json) (imports : list string) (t : string) (imports' : list string) :
  oneof_attribute schema d imports = inr (t, imports')
  <->
  exists v rendered,
    py_getitem d "oneOf" = inr v
    /\ t = "T.Union([" ++ join ", " (sorted rendered) ++ "])"
    /\ ((exists alts,
            v = JArr alts
            /\ Forall2 (renders schema) alts rendered
            /\ imports' = (imports ++ map import_line (flat_map references alts))%list)
        \/ ((v = JObj [] \/ v = JStr EmptyString)
            /\ rendered = [] /\ imports' = imports)).
Proof.
  assert (Fr : forall l, Forall (fun x => framed (any_attribute schema x)) l).
  { intros l. apply Forall_forall. intros x _. apply framed_any_attribute. }
  assert (Ap : forall alts st ys st',
             for_each (any_attribute schema) alts st = inr (ys, st') ->
             st' = (st ++ map import_line (flat_map references alts))%list).
  { intros alts st ys st' H. rewrite <- flat_map_map.
    apply (@for_each_appends _ _ (any_attribute schema)
             (fun x => map import_line (references x)) alts) in H; [exact H|].
    apply Forall_forall. intros x _. split; [apply framed_any_attribute|].
    intros y new Hy. eapply resolver_appends_references; exact Hy. }
  split.
  - intros H. apply oneof_attribute_of_inv in H as (v & types & Hv & H & ->).
    exists v, types. split; [exact Hv|]. split; [reflexivity|].
    destruct v as [ | | | | s | alts | kvs ]; cbn [resolve_each] in H;
      try discriminate H.
    + right. destruct s as [|c s].
      * cbn in H. injection H as <- <-. auto.
      * apply for_each_str_attribute in H as Hs. cbn [list_ascii_of_string map for_each] in H.
        unfold mbind at 1, str_attribute in H.
        destruct (contains "type" (String c EmptyString)
                  || contains "$ref" (String c EmptyString)
                  || contains "oneOf" (String c EmptyString))%bool; discriminate H.
    + left. exists alts. split; [reflexivity|]. split.
      * eapply for_each_gives; [apply Fr | exact H].
      * eapply Ap; exact H.
    + right. destruct kvs as [|[k v] kvs].
      * cbn in H. injection H as <- <-. auto.
      * cbn [map fst for_each] in H. unfold mbind at 1, str_attribute in H.
        destruct (contains "type" k || contains "$ref" k || contains "oneOf" k)%bool;
          discriminate H.
  - intros (v & rendered & Hv & -> & H).
    unfold oneof_attribute, oneof_attribute_of, mbind, lift, mret, bind, ret.
    rewrite py_getitem_with_spec, Hv. unfold bind, ret.
    destruct H as [(alts & -> & F & ->) | ([-> | ->] & -> & ->)];
      [|reflexivity|reflexivity].
    cbn [resolve_each].
    destruct (gives_for_each imports (Fr alts) F) as (st' & E).
    rewrite E. now rewrite (Ap _ _ _ _ E).
Qed.

(** ** Descriptors that are not dicts *)

Lemma py_getitem_non_dict (d : json) (k : string) :
  (forall kvs, d <> JObj kvs) -> py_getitem d k = inl TypeError.
Proof.
  intros H. destruct d; try reflexivity. now destruct (H kvs).
Qed.

Lemma py_in_error (k : string) (d : json) (e : exn) :
  py_in k d = inl e -> e = TypeError.
Proof.
  destruct d; unfold py_in, ret, raise; intros H; congruence.
Qed.

Lemma get_attr_kwds_non_dict (d : json) (e : exn) :
  (forall kvs, d <> JObj kvs) -> get_attr_kwds d = inl e -> e = TypeError.
Proof.
  intros H. unfold get_attr_kwds.
  rewrite !(py_getitem_non_dict _ H). unfold bind, ret.
  destruct (py_in "description" d) as [e1|[|]] eqn:E1.
  { apply py_in_error in E1. congruence. }
  { now intros [= <-]. }
  destruct (py_in "minimum" d) as [e2|[|]] eqn:E2.
  { apply py_in_error in E2. congruence. }
  { now intros [= <-]. }
  destruct (py_in "maximum" d) as [e3|[|]] eqn:E3.
  { apply py_in_error in E3. congruence. }
  { now intros [= <-]. }
  discriminate.
Qed.

(** X8.  A descriptor that is not a dict is never resolved: the resolver
    raises TypeError, or the unrecognized-keys error when the descriptor is
    a str or a list in which none of the three shape keys occurs. *)
Theorem any_attribute_needs_dict (schema d : json) (imports : list string) :
  (forall kvs, d <> JObj kvs) ->
  any_attribute schema d imports = inl TypeError
  \/ (any_attribute schema d imports
      = inl (NotImplementedError "unrecognized attribute keys")
      /\ py_in "type" d = inr false /\ py_in "$ref" d = inr false
      /\ py_in "oneOf" d = inr false).
Proof.
  intros H. rewrite any_attribute_unfold. unfold mbind, lift, bind, ret.
  destruct (py_in "type" d) as [e|[|]] eqn:E1.
  - apply py_in_error in E1 as ->. now left.
  - left. unfold type_attribute, type_attribute_of, mbind, lift, bind, ret.
    destruct (get_attr_kwds d) as [e|kwds] eqn:Ek.
    + now rewrite (get_attr_kwds_non_dict H Ek).
    + now rewrite (py_getitem_non_dict _ H).
  - destruct (py_in "$ref" d) as [e|[|]] eqn:E2.
    + apply py_in_error in E2 as ->. now left.
    + left. unfold ref_attribute, mbind, lift, bind, ret.
      destruct (get_attr_kwds d) as [e|kwds] eqn:Ek.
      * now rewrite (get_attr_kwds_non_dict H Ek).
      * now rewrite (py_getitem_non_dict _ H).
    + destruct (py_in "oneOf" d) as [e|[|]] eqn:E3.
      * apply py_in_error in E3 as ->. now left.
      * left. unfold oneof_attribute, oneof_attribute_of, mbind, lift, bind, ret.
        rewrite py_getitem_with_spec. now rewrite (py_getitem_non_dict _ H).
      * right. auto.
Qed.

Lemma any_attribute_needs_dict_witness :
  (forall kvs, JStr "number" <> JObj kvs)
  /\ any_attribute sample_schema (JStr "number") []
     = inl (NotImplementedError "unrecognized attribute keys")
  /\ any_attribute sample_schema (JStr "my type") [] = inl TypeError.
Proof.
  assert (H : forall s kvs, JStr s <> JObj kvs) by discriminate.
  split; [apply H|]. split.
  - destruct (any_attribute_needs_dict sample_schema [] (H "number")) as [E|[E _]];
      [vm_compute in E; discriminate | exact E].
  - destruct (any_attribute_needs_dict sample_schema [] (H "my type")) as [E|[E _]];
      [exact E | vm_compute in E; discriminate].
Defined.

(** ** The import list *)

(** X9.  Resolving a descriptor never removes or reorders the imports
    already collected: it appends to them, and neither what it appends nor
    the text it gives nor the error it raises depends on them. *)
Theorem resolver_only_appends (schema d : json) (imports : list string) :
  (forall t imports',
      any_attribute schema d imports = inr (t, imports') ->
      exists new,
        imports' = (imports ++ new)%list
        /\ forall imports2,
            any_attribute schema d imports2 = inr (t, (imports2 ++ new)%list))
  /\ (forall e,
         any_attribute schema d imports = inl e ->
         forall imports2, any_attribute schema d imports2 = inl e).
Proof.
  pose proof (framed_any_attribute schema d) as F. split.
  - intros t imports' H. rewrite (F imports) in H.
    destruct (any_attribute schema d []) as [e|[t0 new]] eqn:E; [discriminate|].
    injection H as <- <-. exists new. split; [reflexivity|].
    intros imports2. now rewrite (F imports2), E.
  - intros e H imports2. rewrite (F imports) in H. rewrite (F imports2).
    destruct (any_attribute schema d []) as [e0|[t0 new]]; [exact H | discriminate].
Qed.

Lemma resolver_only_appends_witness :
  any_attribute sample_schema (JObj [("$ref", JStr "#/definitions/Color")]) []
  = inr ("Color(allow_none=True, default_value=None)", ["from .color import Color"])
  /\ exists new,
      ["from .color import Color"] = ([] ++ new)%list
      /\ forall imports2,
          any_attribute sample_schema (JObj [("$ref", JStr "#/definitions/Color")])
                        imports2
          = inr ("Color(allow_none=True, default_value=None)", (imports2 ++ new)%list).
Proof.
  assert (H : any_attribute sample_schema
                (JObj [("$ref", JStr "#/definitions/Color")]) []
              = inr ("Color(allow_none=True, default_value=None)",
                     ["from .color import Color"])) by (vm_compute; reflexivity).
  split; [exact H|].
  exact (proj1 (resolver_only_appends sample_schema
                  (JObj [("$ref", JStr "#/definitions/Color")]) []) _ _ H).
Defined.

(** ** The segments of a '$ref' *)

Lemma split_go_char_app (c : ascii) (cur a r : string) :
  contains (String c EmptyString) a = false ->
  split_go (String c EmptyString) 0 cur (a ++ String c r)
  = (cur ++ a) :: split_go (String c EmptyString) 0 EmptyString r.
Proof.
  revert cur. induction a as [|x a IH]; intros cur Ha.
  - cbn [append split_go prefix String.length Nat.sub].
    destruct (ascii_dec c c) as [_|n]; [|now destruct n].
    destruct r; now rewrite append_empty_r.
  - rewrite contains_char_cons in Ha.
    destruct (ascii_dec c x) as [|Hne]; [discriminate|].
    cbn [append split_go prefix].
    destruct (ascii_dec c x); [contradiction|].
    rewrite (IH _ Ha). now rewrite append_assoc.
Qed.

Lemma split_go_char_none (c : ascii) (cur a : string) :
  contains (String c EmptyString) a = false ->
  split_go (String c EmptyString) 0 cur a = [cur ++ a].
Proof.
  revert cur. induction a as [|x a IH]; intros cur Ha.
  - cbn [split_go]. now rewrite append_empty_r.
  - rewrite contains_char_cons in Ha.
    destruct (ascii_dec c x) as [|Hne]; [discriminate|].
    cbn [split_go prefix].
    destruct (ascii_dec c x); [contradiction|].
    rewrite (IH _ Ha). now rewrite append_assoc.
Qed.

Lemma split_three_segments (a b name : string) :
  contains "/" a = false -> contains "/" b = false -> contains "/" name = false ->
  split "/" (a ++ "/" ++ b ++ "/" ++ name) = [a; b; name].
Proof.
  intros Ha Hb Hn. unfold split.
  change (a ++ "/" ++ b ++ "/" ++ name)
    with (a ++ String "/" (b ++ String "/" name)).
  rewrite (@split_go_char_app _ _ _ _ Ha), (@split_go_char_app _ _ _ _ Hb),
    (@split_go_char_none _ _ _ Hn).
  reflexivity.
Qed.

Lemma get_attr_kwds_ref_first (ref : json) (kvs : list (string * json)) :
  get_attr_kwds (JObj (("$ref", ref) :: kvs)) = get_attr_kwds (JObj kvs).
Proof.
  reflexivity.
Qed.

(** X10.  Of a '$ref' only the third segment is read: the first two are
    not compared with '#' and 'definitions', so any path of three segments
    that ends with the name of a definition is resolved as the Reference to
    that definition. *)
Theorem ref_leading_segments_unchecked
  (schema : json) (a b name : string) (kvs : list (string * json))
  (imports : list string) :
  contains "/" a = false -> contains "/" b = false -> contains "/" name = false ->
  ref_attribute schema (JObj (("$ref", JStr (a ++ "/" ++ b ++ "/" ++ name)) :: kvs))
                imports
  = ref_attribute schema (JObj (("$ref", JStr ("#/definitions/" ++ name)) :: kvs))
                  imports.
Proof.
  intros Ha Hb Hn.
  pose proof (@split_three_segments a b name Ha Hb Hn) as E1.
  pose proof (@split_three_segments "#" "definitions" name eq_refl eq_refl Hn) as E2.
  change ("#" ++ "/" ++ "definitions" ++ "/" ++ name)
    with ("#/definitions/" ++ name) in E2.
  unfold ref_attribute, mbind, lift.
  rewrite !get_attr_kwds_ref_first.
  cbn [py_getitem lookup String.eqb Ascii.eqb Bool.eqb bind ret py_split].
  now rewrite E1, E2.
Qed.

Lemma ref_leading_segments_unchecked_witness :
  contains "/" "other.json#" = false /\ contains "/" "anything" = false
  /\ contains "/" "Color" = false
  /\ ref_attribute sample_schema
       (JObj [("$ref", JStr "other.json#/anything/Color")]) []
     = ref_attribute sample_schema
         (JObj [("$ref", JStr "#/definitions/Color")]) [].
Proof.
  split; [reflexivity|]. split; [reflexivity|]. split; [reflexivity|].
  exact (@ref_leading_segments_unchecked sample_schema "other.json#" "anything"
           "Color" [] [] eq_refl eq_refl eq_refl).
Defined.

(** ** What the resolver reads of a referenced definition *)

Section TargetTypes.
Variables schema schema' : json.
Hypothesis Htypes : forall name, target_type schema name = target_type schema' name.

Lemma target_types_ref_attribute (d : json) (imports : list string) :
  ref_attribute schema d imports = ref_attribute schema' d imports.
Proof.
  unfold ref_attribute, mbind, lift.
  destruct (kwds <- get_attr_kwds d ;; ret (kwds, imports)) as [e|[kwds st]];
    [reflexivity|].
  destruct (parts <- (ref <- py_getitem d "$ref" ;; py_split ref "/") ;;
            ret (parts, st)) as [e|[parts st1]]; [reflexivity|].
  destruct parts as [|a [|b [|name [|? ?]]]]; try reflexivity.
  destruct (append_import ("from ." ++ lower name ++ " import " ++ name) st1)
    as [e|[u st2]]; [reflexivity|].
  pose proof (Htypes name) as H. unfold target_type in H. now rewrite H.
Qed.

Lemma target_types_resolver :
  forall d imports,
    any_attribute schema d imports = any_attribute schema' d imports
    /\ resolve_each (any_attribute schema) d imports
       = resolve_each (any_attribute schema') d imports.
Proof.
  assert (Hany : forall d,
             (forall kvs v, d = JObj kvs -> In v (map snd kvs) ->
                forall imports,
                  any_attribute schema v imports = any_attribute schema' v imports
                  /\ resolve_each (any_attribute schema) v imports
                     = resolve_each (any_attribute schema') v imports) ->
             forall imports,
               any_attribute schema d imports = any_attribute schema' d imports).
  { intros d H imports. rewrite !any_attribute_unfold.
    unfold mbind at 1 4, lift.
    destruct (has_type <- py_in "type" d ;; ret (has_type, imports))
      as [e|[[|] st]]; [reflexivity| |].
    { apply type_attribute_of_ext. intros v Hv st'.
      apply py_getitem_dict in Hv as (kvs & -> & Hv).
      apply (H kvs v eq_refl). apply in_map_iff. exists ("items", v).
      split; [reflexivity | now apply lookup_In]. }
    unfold mbind at 1 3.
    destruct (has_ref <- py_in "$ref" d ;; ret (has_ref, st))
      as [e|[[|] st1]]; [reflexivity| |].
    { apply target_types_ref_attribute. }
    unfold mbind at 1 2.
    destruct (has_oneof <- py_in "oneOf" d ;; ret (has_oneof, st1))
      as [e|[[|] st2]]; [reflexivity| |reflexivity].
    apply oneof_attribute_of_ext. intros v Hv st'.
    apply py_getitem_dict in Hv as (kvs & -> & Hv).
    apply (H kvs v eq_refl). apply in_map_iff. exists ("oneOf", v).
    split; [reflexivity | now apply lookup_In]. }
  induction d as [ | b | z | r | s | l IHl | kvs IHkvs ] using json_induction;
    intros imports;
    (split; [apply Hany; try discriminate | try reflexivity]).
  - cbn [resolve_each]. apply for_each_ext.
    eapply Forall_impl; [|exact IHl]. intros v H st. apply H.
  - intros kvs' v [= <-] Hin st. apply in_map_iff in Hin as (kv & <- & Hin).
    rewrite Forall_forall in IHkvs. now apply IHkvs.
Qed.
End TargetTypes.

(** X11.  The resolver reads nothing of a referenced definition but its
    type: it does not enter the properties of the target, so two schemas
    that give every name the same type, or the same error, resolve every
    descriptor alike, and a definition that refers to itself is no
    obstacle. *)
Theorem resolver_reads_only_target_types (schema schema' d : json) (imports : list string) :
  (forall name, target_type schema name = target_type schema' name) ->
  any_attribute schema d imports = any_attribute schema' d imports.
Proof.
  intros H. now apply target_types_resolver.
Qed.

Lemma sample_types_same (name : string) :
  target_type sample_schema name = target_type sample_types_only name.
Proof.
  unfold target_type, sample_schema, sample_types_only.
  assert (Hd : forall x, py_getitem (JObj [("definitions", x)]) "definitions" = inr x)
    by reflexivity.
  rewrite !Hd.
  assert (H : forall dm dc,
             py_getitem (JObj [("Mark", dm); ("Color", dc)]) name
             = if String.eqb "Mark" name then inr dm
               else if String.eqb "Color" name then inr dc
               else inl (KeyError name)).
  { intros dm dc. cbn [py_getitem lookup].
    destruct (String.eqb "Mark" name); [reflexivity|].
    destruct (String.eqb "Color" name); reflexivity. }
  cbn [bind]. rewrite !H.
  destruct (String.eqb "Mark" name); [reflexivity|].
  destruct (String.eqb "Color" name); reflexivity.
Qed.

Lemma resolver_reads_only_target_types_witness :
  (forall name, target_type sample_schema name = target_type sample_types_only name)
  /\ any_attribute sample_schema (JObj [("properties", JObj mark_props)]) []
     = any_attribute sample_types_only (JObj [("properties", JObj mark_props)]) []
  /\ any_attribute sample_schema
       (JObj [("oneOf", JArr [JObj [("$ref", JStr "#/definitions/Mark")];
                              JObj [("$ref", JStr "#/definitions/Color")]])]) []
     = any_attribute sample_types_only
         (JObj [("oneOf", JArr [JObj [("$ref", JStr "#/definitions/Mark")];
                                JObj [("$ref", JStr "#/definitions/Color")]])]) [].
Proof.
  split; [exact sample_types_same|]. split.
  - exact (@resolver_reads_only_target_types sample_schema sample_types_only
             _ [] sample_types_same).
  - exact (@resolver_reads_only_target_types sample_schema sample_types_only
             _ [] sample_types_same).
Defined.

Example self_reference_resolved :
  (self <- init "Node" node_schema ;;
   '(_, self) <- class_definition self ;;
   ret (imports_of self))
  = inr ["import traitlets as T"; "from ..baseobject import BaseObject";
         "from .node import Node"].
Proof.
  vm_compute. reflexivity.
Qed.

(** ** Definition objects *)

(** X12.  [class_definition] changes an Object definition: the imports of
    its References stay in the object, so that a second call on the object
    gives the same class body after an import block in which these imports
    stand twice.  A String definition is not changed. *)
Theorem class_definition_again :
  (forall self text self',
      class_definition (StringDef self) = inr (text, self') ->
      self' = StringDef self)
  /\ (forall self props text self',
         od_prop_dict self = JObj props ->
         class_definition (ObjectDef self) = inr (text, self') ->
         exists body text2 self'',
           class_definition self' = inr (text2, self'')
           /\ text = file_comment ++ nl ++ nl ++ join nl (imports_of self')
                                  ++ nl ++ nl ++ nl ++ body ++ nl
           /\ text2 = file_comment ++ nl ++ nl ++ join nl (imports_of self'')
                                   ++ nl ++ nl ++ nl ++ body ++ nl
           /\ imports_of self''
              = (imports_of self'
                 ++ map import_line
                        (flat_map references (map snd (sorted_items props))))%list).
Proof.
  split.
  - intros self text self' H. unfold class_definition, code, bind, ret in H.
    destruct (StringDefinition_code self); congruence.
  - intros self props text self' Hp H.
    unfold class_definition in H.
    destruct (code (ObjectDef self)) as [e|[body s1]] eqn:Ec; [discriminate|].
    unfold bind, ret in H.
    assert (Ht : text = file_comment ++ nl ++ nl ++ join nl (imports_of s1)
                                     ++ nl ++ nl ++ nl ++ body ++ nl) by congruence.
    assert (Hs : self' = s1) by congruence.
    clear H. subst self'.
    unfold code, ObjectDefinition_code in Ec. rewrite Hp in Ec.
    unfold py_items, bind, ret in Ec.
    destruct (for_each (attribute_line (od_schema self)) (sorted_items props)
                       (od_imports self)) as [e|[lines st1]] eqn:E; [discriminate|].
    assert (Hs : s1 = ObjectDef (mkObjectDefinition
                                   (od_name self) (od_schema self) (od_definition self)
                                   (od_prop_dict self) st1)) by congruence.
    assert (Hb : body = class_template (od_name self) ++ join EmptyString lines)
      by congruence.
    clear Ec. subst s1.
    apply for_each_gives in E; [|apply framed_attribute_lines].
    destruct (gives_for_each st1 (framed_attribute_lines _ _) E) as (st2 & E2).
    exists body, (file_comment ++ nl ++ nl ++ join nl st2
                               ++ nl ++ nl ++ nl ++ body ++ nl),
           (ObjectDef (mkObjectDefinition
                         (od_name self) (od_schema self) (od_definition self)
                         (od_prop_dict self) st2)).
    split; [|split; [exact Ht|split; [reflexivity|]]].
    + unfold class_definition, code, ObjectDefinition_code.
      cbn [od_prop_dict od_schema od_name od_imports od_definition].
      rewrite Hp. unfold py_items, bind, ret. rewrite E2.
      cbn [imports_of od_imports]. now rewrite Hb.
    + cbn [imports_of od_imports]. now apply attribute_lines_append in E2.
Qed.

Lemma class_definition_again_witness :
  exists text self' body text2 self'',
    od_prop_dict mark_self = JObj mark_props
    /\ class_definition (ObjectDef mark_self) = inr (text, self')
    /\ class_definition self' = inr (text2, self'')
    /\ text = file_comment ++ nl ++ nl ++ join nl (imports_of self')
                           ++ nl ++ nl ++ nl ++ body ++ nl
    /\ text2 = file_comment ++ nl ++ nl ++ join nl (imports_of self'')
                            ++ nl ++ nl ++ nl ++ body ++ nl
    /\ imports_of self''
       = (imports_of self'
          ++ map import_line
                 (flat_map references (map snd (sorted_items mark_props))))%list.
Proof.
  destruct (class_definition (ObjectDef mark_self)) as [e|[text self']] eqn:E;
    [vm_compute in E; discriminate|].
  destruct (proj2 class_definition_again mark_self mark_props text self' eq_refl E)
    as (body & text2 & self'' & H1 & H2 & H3 & H4).
  exists text, self', body, text2, self''. repeat split; assumption.
Defined.

(** X13.  Once [init] has given a String definition, its class text is
    produced without error, with the single import of traitlets. *)
Theorem string_definition_never_fails
  (name : string) (schema : json) (self : StringDefinition) :
  init name schema = inr (StringDef self) ->
  exists body,
    StringDefinition_code self = inr body
    /\ class_definition (StringDef self)
       = inr (file_comment ++ nl ++ nl ++ "import traitlets as T"
                           ++ nl ++ nl ++ nl ++ body ++ nl,
              StringDef self).
Proof.
  unfold init, ObjectDefinition_new, StringDefinition_new, bind, ret.
  destruct (py_getitem schema "definitions") as [e|defs]; [discriminate|].
  destruct (py_getitem defs name) as [e|d]; [discriminate|].
  destruct (py_getitem d "type") as [e|typ] eqn:Et; [discriminate|].
  apply py_getitem_dict in Et as (kvs & -> & _).
  destruct (py_eq_str typ "object").
  { destruct (py_getitem (JObj kvs) "properties"); discriminate. }
  destruct (py_eq_str typ "string"); [|discriminate].
  intros [= <-].
  assert (Hc : exists body,
             StringDefinition_code
               (mkStringDefinition name schema (JObj kvs) ["import traitlets as T"])
             = inr body).
  { unfold StringDefinition_code. cbn [sd_definition sd_name py_in py_getitem ret bind].
    unfold has_key. destruct (lookup "enum" kvs); cbn [bind ret]; eauto. }
  destruct Hc as (body & Hc). exists body. split; [exact Hc|].
  unfold class_definition, code, bind, ret. now rewrite Hc.
Qed.

Lemma string_definition_never_fails_witness :
  exists body,
    init "Color" sample_schema = inr (StringDef color_self)
    /\ StringDefinition_code color_self = inr body
    /\ class_definition (StringDef color_self)
       = inr (file_comment ++ nl ++ nl ++ "import traitlets as T"
                           ++ nl ++ nl ++ nl ++ body ++ nl,
              StringDef color_self).
Proof.
  destruct (@string_definition_never_fails "Color" sample_schema color_self eq_refl)
    as (body & H1 & H2).
  exists body. repeat split; assumption.
Defined.

(** ** The definitions of a schema *)

Lemma yielded_all (schema : json) (names : list string) :
  Forall (fun name => exists obj, init name schema = inr obj) names ->
  exists pairs,
    yielded (map (fun name => (name, init name schema)) names) = (pairs, None)
    /\ map fst pairs = names
    /\ Forall (fun p => init (fst p) schema = inr (snd p)) pairs.
Proof.
  induction 1 as [|name names (obj & Ho) _ (pairs & IH & Hn & Hi)].
  - exists []. repeat split. constructor.
  - exists ((name, obj) :: pairs). cbn [map yielded]. rewrite Ho, IH.
    cbn [map fst]. rewrite Hn. repeat split. constructor; [exact Ho | exact Hi].
Qed.

Lemma yielded_until (schema : json) (pre : list string) name e post :
  Forall (fun name => exists obj, init name schema = inr obj) pre ->
  init name schema = inl e ->
  exists pairs,
    yielded (map (fun name => (name, init name schema)) (pre ++ name :: post)%list)
    = (pairs, Some e)
    /\ map fst pairs = pre
    /\ Forall (fun p => init (fst p) schema = inr (snd p)) pairs.
Proof.
  intros Hpre He. induction Hpre as [|n pre (obj & Ho) _ (pairs & IH & Hn & Hi)].
  - exists []. cbn [app map yielded]. rewrite He. repeat split. constructor.
  - exists ((n, obj) :: pairs). cbn [app map yielded]. rewrite Ho, IH.
    cbn [map fst]. rewrite Hn. repeat split. constructor; [exact Ho | exact Hi].
Qed.

(** X14.  When the 'definitions' of the schema is a dict, the generator
    [definitions] takes its keys in ascending order and runs [init] on each
    before it yields it.  If [init] succeeds on every key, it yields one
    pair per key, the key with the definition object [init] made of it, and
    ends without error.  If [init] fails on some key, it yields the pairs
    of the keys before the first such key and raises the error of that
    [init]; nothing is yielded after.  A schema dict without 'definitions'
    raises KeyError. *)
Theorem definitions_cover_names (schema : json) :
  (forall kvs,
      py_getitem schema "definitions" = inr (JObj kvs) ->
      Forall (fun kv => exists obj, init (fst kv) schema = inr obj) kvs ->
      exists defs pairs,
        definitions schema = inr defs
        /\ yielded defs = (pairs, None)
        /\ map fst pairs = sorted (map fst kvs)
        /\ Permutation (map fst kvs) (map fst pairs)
        /\ List.length pairs = List.length kvs
        /\ Forall (fun p => init (fst p) schema = inr (snd p)) pairs)
  /\ (forall kvs pre name post e,
         py_getitem schema "definitions" = inr (JObj kvs) ->
         sorted (map fst kvs) = (pre ++ name :: post)%list ->
         Forall (fun n => exists obj, init n schema = inr obj) pre ->
         init name schema = inl e ->
         exists defs pairs,
           definitions schema = inr defs
           /\ yielded defs = (pairs, Some e)
           /\ map fst pairs = pre
           /\ Forall (fun p => init (fst p) schema = inr (snd p)) pairs)
  /\ (forall top,
         schema = JObj top -> lookup "definitions" top = None ->
         definitions schema = inl (KeyError "definitions")).
Proof.
  split; [|split].
  - intros kvs H Hall. unfold definitions. rewrite H. cbn [bind sorted_names ret].
    assert (Hs : Forall (fun name => exists obj, init name schema = inr obj)
                        (sorted (map fst kvs))).
    { apply (Permutation_Forall (sorted_perm (map fst kvs))).
      apply Forall_map. exact Hall. }
    destruct (@yielded_all schema _ Hs) as (pairs & Hy & Hn & Hi).
    eexists. exists pairs. split; [reflexivity|]. split; [exact Hy|].
    split; [exact Hn|]. split; [rewrite Hn; apply sorted_perm|].
    split; [|exact Hi].
    rewrite <- (length_map fst pairs), Hn, <- (length_map fst kvs).
    symmetry. apply Permutation_length, sorted_perm.
  - intros kvs pre name post e H Hs Hpre He.
    unfold definitions. rewrite H. cbn [bind sorted_names ret]. rewrite Hs.
    destruct (@yielded_until schema pre name e post Hpre He) as (pairs & Hy & Hn & Hi).
    eexists. exists pairs. split; [reflexivity|]. split; [exact Hy|].
    split; [exact Hn | exact Hi].
  - intros top -> H. unfold definitions. cbn [py_getitem]. now rewrite H.
Qed.

Lemma definitions_cover_names_witness :
  py_getitem sample_schema "definitions"
  = inr (JObj [("Mark", mark_def); ("Color", color_def)])
  /\ Forall (fun kv => exists obj, init (fst kv) sample_schema = inr obj)
            [("Mark", mark_def); ("Color", color_def)]
  /\ exists defs,
      definitions sample_schema = inr defs
      /\ yielded defs
         = ([("Color", StringDef color_self); ("Mark", ObjectDef mark_self)], None).
Proof.
  assert (Hall : Forall (fun kv => exists obj, init (fst kv) sample_schema = inr obj)
                        [("Mark", mark_def); ("Color", color_def)]).
  { repeat constructor; eexists; vm_compute; reflexivity. }
  split; [reflexivity|]. split; [exact Hall|].
  destruct (proj1 (definitions_cover_names sample_schema)
                  [("Mark", mark_def); ("Color", color_def)] eq_refl Hall)
    as (defs & pairs & Hd & Hy & _).
  exists defs. split; [exact Hd|].
  rewrite Hy. vm_compute in Hd. injection Hd as <-. vm_compute in Hy.
  injection Hy as <-. reflexivity.
Defined.

(** ** When the code of an Object definition is produced *)

Lemma Forall_exists_Forall2 (A B : Type) (R : A -> B -> Prop) (l : list A) :
  Forall (fun x => exists y, R x y) l -> exists ys, Forall2 R l ys.
Proof.
  induction 1 as [|x l (y & Hy) _ (ys & IH)].
  - exists []. constructor.
  - exists (y :: ys). now constructor.
Qed.

Lemma Forall2_Forall_exists (A B : Type) (R : A -> B -> Prop) (l : list A) ys :
  Forall2 R l ys -> Forall (fun x => exists y, R x y) l.
Proof.
  induction 1; constructor; eauto.
Qed.

(** X19.  The code of an Object definition is produced exactly when its
    properties are a dict and the descriptor of every property can be
    resolved; properties that are not a dict raise AttributeError. *)
Theorem object_code_succeeds_iff (self : ObjectDefinition) :
  ((exists text self', ObjectDefinition_code self = inr (text, self'))
   <->
   exists props,
     od_prop_dict self = JObj props
     /\ Forall (fun kv => exists t, renders (od_schema self) (snd kv) t) props)
  /\ ((forall props, od_prop_dict self <> JObj props) ->
      ObjectDefinition_code self = inl AttributeError).
Proof.
  split; [split|].
  - intros (text & self' & H). unfold ObjectDefinition_code in H.
    destruct (od_prop_dict self) as [ | | | | | | props]; try discriminate H.
    exists props. split; [reflexivity|].
    cbn [py_items bind ret] in H.
    destruct (for_each (attribute_line (od_schema self)) (sorted_items props)
                       (od_imports self)) as [e|[lines st]] eqn:E; [discriminate|].
    apply for_each_gives in E; [|apply framed_attribute_lines].
    apply Forall2_Forall_exists in E.
    eapply Permutation_Forall; [apply Permutation_sym, sorted_items_perm|].
    eapply Forall_impl; [|exact E].
    intros kv (line & Hl). apply attribute_line_gives in Hl as (t & Ht & _).
    now exists t.
  - intros (props & Hp & F). unfold ObjectDefinition_code. rewrite Hp.
    cbn [py_items bind ret].
    assert (F' : Forall (fun kv => exists line,
                           gives (attribute_line (od_schema self)) kv line)
                        (sorted_items props)).
    { eapply Permutation_Forall; [apply sorted_items_perm|].
      eapply Forall_impl; [|exact F].
      intros kv (t & Ht). exists (attr_template (fst kv) t).
      apply attribute_line_gives. now exists t. }
    apply Forall_exists_Forall2 in F' as (lines & F').
    destruct (gives_for_each (od_imports self) (framed_attribute_lines _ _) F')
      as (st & E).
    rewrite E. eexists. eexists. reflexivity.
  - intros H. unfold ObjectDefinition_code.
    destruct (od_prop_dict self) as [ | | | | | | props]; try reflexivity.
    now destruct (H props).
Qed.

Lemma for_each_first_failure (A B : Type) (f : A -> M B) (ok : list A) (x : A)
      (rest : list A) (e : exn) :
  Forall (fun a => framed (f a)) (ok ++ x :: rest)%list ->
  Forall (fun a => exists y, gives f a y) ok ->
  f x [] = inl e ->
  forall imports, for_each f (ok ++ x :: rest)%list imports = inl e.
Proof.
  intros Fr Fok Hx. induction Fok as [|a ok (y & n & Ha) _ IH]; intros imports.
  - cbn [app for_each] in *. inversion Fr as [|? ? Fx _]; subst.
    unfold mbind at 1. now rewrite (Fx imports), Hx.
  - cbn [app for_each] in *. inversion Fr as [|? ? Fa Fr']; subst.
    unfold mbind at 1. rewrite (Fa imports), Ha.
    unfold mbind at 1. now rewrite (IH Fr').
Qed.

(** X20.  When the descriptor of a property cannot be resolved, the code
    of the Object definition fails with the error of the first such
    property in the order of the property names, whatever the properties
    after it. *)
Theorem object_code_first_failure
  (self : ObjectDefinition) (props ok rest : list (string * json))
  (k : string) (v : json) (e : exn) :
  od_prop_dict self = JObj props ->
  sorted_items props = (ok ++ (k, v) :: rest)%list ->
  Forall (fun kv => exists t, renders (od_schema self) (snd kv) t) ok ->
  any_attribute (od_schema self) v [] = inl e ->
  ObjectDefinition_code self = inl e.
Proof.
  intros Hp Hs Fok He. unfold ObjectDefinition_code. rewrite Hp.
  cbn [py_items bind ret]. rewrite Hs.
  rewrite (@for_each_first_failure _ _ (attribute_line (od_schema self)) ok (k, v)
             rest e).
  - reflexivity.
  - apply framed_attribute_lines.
  - eapply Forall_impl; [|exact Fok].
    intros kv (t & Ht). exists (attr_template (fst kv) t).
    apply attribute_line_gives. now exists t.
  - unfold attribute_line, mbind. cbn [snd]. now rewrite He.
Qed.

Lemma object_code_first_failure_witness :
  sorted_items [("b", JObj [("type", JStr "integer")]);
                ("c", JObj []);
                ("a", number_descriptor)]
  = ([("a", number_descriptor)]
     ++ ("b", JObj [("type", JStr "integer")]) :: [("c", JObj [])])%list
  /\ any_attribute sample_schema (JObj [("type", JStr "integer")]) []
     = inl (NotImplementedError "integer")
  /\ ObjectDefinition_code
       (mkObjectDefinition "Mark" sample_schema mark_def
          (JObj [("b", JObj [("type", JStr "integer")]);
                 ("c", JObj []);
                 ("a", number_descriptor)]) [])
     = inl (NotImplementedError "integer").
Proof.
  split; [reflexivity|]. split; [reflexivity|].
  apply (@object_code_first_failure
           (mkObjectDefinition "Mark" sample_schema mark_def
              (JObj [("b", JObj [("type", JStr "integer")]);
                     ("c", JObj []);
                     ("a", number_descriptor)]) [])
           [("b", JObj [("type", JStr "integer")]); ("c", JObj []);
            ("a", number_descriptor)]
           [("a", number_descriptor)] [("c", JObj [])]
           "b" (JObj [("type", JStr "integer")]) (NotImplementedError "integer")
           eq_refl eq_refl).
  - constructor; [|constructor].
    exists "T.CFloat(allow_none=True, default_value=None)". exists []. reflexivity.
  - reflexivity.
Defined.

Lemma object_code_succeeds_iff_witness :
  (forall props, od_prop_dict
                   (mkObjectDefinition "Mark" sample_schema mark_def
                                       (JArr []) []) <> JObj props)
  /\ ObjectDefinition_code
       (mkObjectDefinition "Mark" sample_schema mark_def (JArr []) [])
     = inl AttributeError.
Proof.
  assert (H : forall props,
             od_prop_dict (mkObjectDefinition "Mark" sample_schema mark_def
                                              (JArr []) []) <> JObj props)
    by discriminate.
  split; [exact H|].
  exact (proj2 (object_code_succeeds_iff
                  (mkObjectDefinition "Mark" sample_schema mark_def (JArr []) []))
               H).
Defined.
